(** * Conversation scroll engine and prompt input: a shallow embedding

    Source files: [src/components/prompt-input.js] (the prompt input, and the
    conversation component with its scroll latch and snap layout engines).

    JavaScript numbers that come out of the DOM (offsets, heights, paddings)
    are modelled by exact rationals [Q]; [Math.ceil], [Math.max] and
    [Math.abs] are [Qceiling], [Qmax] and [Qabs].  Equality of such numbers
    is [Qeq], written [==].  The rounding of a double is not modelled; on
    whole pixels the arithmetic of the code is exact. *)

From Stdlib Require Import QArith Qround Qabs Qminmax Lia Lqa List Bool.
From Stdlib Require Import Arith Ascii String.
Import ListNotations.
Open Scope Q_scope.

(* ------------------------------------------------------------------------- *)
(** ** JavaScript helpers *)

(** [a > b] and [a < b] on numbers. *)
Definition Qltb (a b : Q) : bool := negb (Qle_bool b a).

(** [x || d] on a number: [0] is falsy, every other number is itself. *)
Definition js_or (x d : Q) : Q := if Qeq_bool x 0 then d else x.

(** [x || d] where [x] may also be [null]. *)
Definition js_or_null (x : option Q) (d : Q) : Q :=
  match x with
  | None => d
  | Some v => js_or v d
  end.

(** Reading a property of [null] throws; everything else completes. *)
Inductive js_error : Type := TypeError.

Inductive completion (A : Type) : Type :=
| Normal (a : A)
| Throw (e : js_error).
Arguments Normal {A} a.
Arguments Throw {A} e.

Definition bind {A B : Type} (m : completion A) (k : A -> completion B)
  : completion B :=
  match m with
  | Normal a => k a
  | Throw e => Throw e
  end.

Notation "x <- m ;; k" := (bind m (fun x => k))
  (at level 61, m at next level, right associativity).

(* ------------------------------------------------------------------------- *)
(** ** The viewport (the scrollable container element)

    The engines only see the container through a handful of DOM reads
    ([scrollTop], [scrollHeight], [clientHeight], the bounding rectangle's
    height, the computed paddings, and [offsetTop] of a child) and two
    writes ([style.paddingBottom] and [scrollTop] / [scrollTo]).

    Layout rules of the model, those of a CSS box that scrolls:
    - a computed padding is never negative;
    - the box is as high as its style makes it, and never lower than its
      own paddings: [clientHeight] grows with the bottom padding once the
      paddings no longer fit;
    - [scrollHeight] is the height of the content with the bottom padding,
      and never less than [clientHeight];
    - the bounding rectangle adds the borders to the client height;
    - scroll positions are kept inside [0, scrollHeight - clientHeight]. *)

Definition Element := nat.

Record Container : Type := mkContainer {
  scrollTop : Q;
  contentHeight : Q;       (* the children with the top padding, without the bottom one *)
  styleHeight : Q;         (* height the style sheet gives the padding box *)
  borderHeight : Q;        (* what the bounding rectangle adds to the client height *)
  stylePaddingTop : Q;     (* style.paddingTop, in px *)
  stylePaddingBottom : Q;  (* style.paddingBottom, in px *)
  offsetTop : Element -> Q
}.

(** [parseFloat(getComputedStyle(container).paddingTop)] *)
Definition paddingTop (c : Container) : Q := Qmax 0 (stylePaddingTop c).

(** [parseFloat(getComputedStyle(container).paddingBottom)] *)
Definition paddingBottom (c : Container) : Q := Qmax 0 (stylePaddingBottom c).

Definition clientHeight (c : Container) : Q :=
  Qmax (styleHeight c) (paddingTop c + paddingBottom c).

(** [getBoundingClientRect().height] *)
Definition rectHeight (c : Container) : Q :=
  clientHeight c + borderHeight c.

Definition scrollHeight (c : Container) : Q :=
  Qmax (clientHeight c) (contentHeight c + paddingBottom c).

Definition maxScrollTop (c : Container) : Q :=
  Qmax 0 (scrollHeight c - clientHeight c).

Definition clampScroll (c : Container) (v : Q) : Q :=
  Qmax 0 (Qmin v (maxScrollTop c)).

(** [container.scrollTop = v] *)
Definition set_scrollTop (c : Container) (v : Q) : Container :=
  {| scrollTop := clampScroll c v;
     contentHeight := contentHeight c;
     styleHeight := styleHeight c;
     borderHeight := borderHeight c;
     stylePaddingTop := stylePaddingTop c;
     stylePaddingBottom := stylePaddingBottom c;
     offsetTop := offsetTop c |}.

(** [container.style.paddingBottom = `${p}px`]; the layout pass that follows
    resizes the box if it has to and keeps the scroll position in range. *)
Definition set_paddingBottom (c : Container) (p : Q) : Container :=
  let c' := {| scrollTop := scrollTop c;
               contentHeight := contentHeight c;
               styleHeight := styleHeight c;
               borderHeight := borderHeight c;
               stylePaddingTop := stylePaddingTop c;
               stylePaddingBottom := p;
               offsetTop := offsetTop c |} in
  set_scrollTop c' (scrollTop c).

(** [container.scrollTo({ top, behavior })]: the position the scroll ends at
    (a smooth scroll is represented by where it arrives). *)
Definition scrollTo (c : Container) (top : Q) (smooth : bool) : Container :=
  set_scrollTop c top.

(** An offset is a valid scroll position of the container. *)
Definition reachable (c : Container) (v : Q) : Prop :=
  0 <= v /\ v <= scrollHeight c - clientHeight c.

(* ------------------------------------------------------------------------- *)
(** ** Configuration *)

Record Config : Type := mkConfig {
  NEAR_BOTTOM_THRESHOLD : Q;
  SCROLL_FOLLOW_THRESHOLD : Q
}.

Definition DEFAULT_CONFIG : Config :=
  {| NEAR_BOTTOM_THRESHOLD := 4; SCROLL_FOLLOW_THRESHOLD := 50 |}.

(* ------------------------------------------------------------------------- *)
(** ** Scroll latch engine ([createScrollLatch]) *)

Record ScrollLatch : Type := mkLatch {
  latched : bool;
  lastScrollTop : Q
}.

Definition createScrollLatch : ScrollLatch :=
  {| latched := true; lastScrollTop := 0 |}.

Definition distFromBottom (c : Container) : Q :=
  scrollHeight c - scrollTop c - clientHeight c.

(** The scroll listener, run on the container as it is when the event is
    delivered. *)
Definition handleScroll (config : Config) (l : ScrollLatch) (c : Container)
  : ScrollLatch :=
  let currentScroll := scrollTop c in
  let dist := scrollHeight c - currentScroll - clientHeight c in
  let latched' :=
    if Qltb currentScroll (lastScrollTop l) then false
    else if Qltb dist (NEAR_BOTTOM_THRESHOLD config) then true
    else latched l in
  {| latched := latched'; lastScrollTop := currentScroll |}.

Definition isLatched (l : ScrollLatch) : bool := latched l.

Definition engage (l : ScrollLatch) (c : Container) : ScrollLatch :=
  {| latched := true; lastScrollTop := scrollTop c |}.

Definition disengage (l : ScrollLatch) : ScrollLatch :=
  {| latched := false; lastScrollTop := lastScrollTop l |}.

(** A run of scroll events, each seen on its own container snapshot. *)
Definition handleScrolls (config : Config) (l : ScrollLatch)
  (events : list Container) : ScrollLatch :=
  fold_left (handleScroll config) events l.

(* ------------------------------------------------------------------------- *)
(** ** Snap layout engine ([createSnapLayout]) *)

Record SnapLayout : Type := mkSnap {
  target : option Element;
  isSnapped : bool
}.

(** The object [enforce] returns. *)
Record EnforceResult : Type := mkResult {
  ret_isSnapped : bool;
  ret_padding : Q
}.

Definition createSnapLayout : SnapLayout :=
  {| target := None; isSnapped := false |}.

Definition getContainerPadding (c : Container) : Q :=
  js_or (paddingTop c) 0.

Definition calculateOffset (c : Container) (element : option Element)
  : completion Q :=
  match element with
  | None => Throw TypeError
  | Some el => Normal (Qmax 0 (offsetTop c el - getContainerPadding c))
  end.

Definition enforce (s : SnapLayout) (c : Container)
  (overrideHeight : option Q) (forceSnap : bool)
  : completion (SnapLayout * Container * EnforceResult) :=
  match target s with
  | None => Normal (s, c, {| ret_isSnapped := false; ret_padding := 0 |})
  | Some _ =>
    let currentPadding := js_or (paddingBottom c) 0 in
    let naturalScrollHeight := scrollHeight c - currentPadding in
    let viewportHeight := js_or_null overrideHeight (rectHeight c) in
    let maxNaturalScroll := naturalScrollHeight - viewportHeight in
    snapOffset <- calculateOffset c (target s) ;;
    let neededPadding :=
      Qmax 0 (inject_Z (Qceiling (snapOffset - maxNaturalScroll + 1))) in
    let c1 := set_paddingBottom c neededPadding in
    let scrollTop1 := scrollTop c1 in
    let drift := Qabs (scrollTop1 - snapOffset) in
    if forceSnap then
      Normal ({| target := target s; isSnapped := true |},
              set_scrollTop c1 snapOffset,
              {| ret_isSnapped := true; ret_padding := neededPadding |})
    else if isSnapped s then
      if Qltb 10 drift then
        Normal ({| target := target s; isSnapped := false |}, c1,
                {| ret_isSnapped := false; ret_padding := neededPadding |})
      else if Qltb 0 drift then
        Normal (s, set_scrollTop c1 snapOffset,
                {| ret_isSnapped := isSnapped s; ret_padding := neededPadding |})
      else
        Normal (s, c1,
                {| ret_isSnapped := isSnapped s; ret_padding := neededPadding |})
    else
      Normal (s, c1,
              {| ret_isSnapped := isSnapped s; ret_padding := neededPadding |})
  end.

Definition setTarget (s : SnapLayout) (element : option Element) : SnapLayout :=
  {| target := element; isSnapped := true |}.

Definition getTarget (s : SnapLayout) : option Element := target s.

(** [snapLayout.clear()] *)
Definition snap_clear (s : SnapLayout) (c : Container)
  : SnapLayout * Container :=
  ({| target := None; isSnapped := false |}, set_paddingBottom c 0).

(* ------------------------------------------------------------------------- *)
(** ** Conversation component ([Conversation]) *)

Inductive ScrollBehavior : Type := FromStylesheet | BehaviorAuto.

(** Work handed to [requestAnimationFrame]. *)
Inductive FrameCallback : Type := ForceSnapFrame.

Record Conversation : Type := mkConversation {
  container : Container;
  scrollBehavior : ScrollBehavior;    (* container.style.scrollBehavior *)
  scrollBtn : option bool;            (* the button, if any: shown ('flex') or not *)
  config : Config;
  scrollLatch : ScrollLatch;
  snapLayout : SnapLayout;
  isStreaming : bool
}.

Definition isNearBottom (cv : Conversation) (threshold : Q) : bool :=
  let c := container cv in
  Qltb (scrollHeight c - scrollTop c - clientHeight c) threshold.

Definition updateScrollButton (cv : Conversation) : Conversation :=
  match scrollBtn cv with
  | None => cv
  | Some _ =>
    let c := container cv in
    let hasContent := Qltb (clientHeight c) (scrollHeight c) in
    {| container := c;
       scrollBehavior := scrollBehavior cv;
       scrollBtn :=
         Some (hasContent && negb (isNearBottom cv (SCROLL_FOLLOW_THRESHOLD (config cv))));
       config := config cv;
       scrollLatch := scrollLatch cv;
       snapLayout := snapLayout cv;
       isStreaming := isStreaming cv |}
  end.

Definition scrollToBottom (cv : Conversation) (smooth : bool) : Conversation :=
  let '(s', c') := snap_clear (snapLayout cv) (container cv) in
  {| container := scrollTo c' (scrollHeight c') smooth;
     scrollBehavior := scrollBehavior cv;
     scrollBtn := scrollBtn cv;
     config := config cv;
     scrollLatch := scrollLatch cv;
     snapLayout := s';
     isStreaming := isStreaming cv |}.

(** The synchronous part of [scrollToMessage], with the frame callbacks it
    schedules. *)
Definition scrollToMessage (cv : Conversation) (element : option Element)
  : Conversation * list FrameCallback :=
  match element with
  | None => (cv, [])
  | Some _ =>
    ({| container := container cv;
        scrollBehavior := BehaviorAuto;
        scrollBtn := scrollBtn cv;
        config := config cv;
        scrollLatch := disengage (scrollLatch cv);
        snapLayout := setTarget (snapLayout cv) element;
        isStreaming := true |},
     [ForceSnapFrame])
  end.

(** Running a scheduled frame callback; the value [enforce] returns is
    dropped by the callback. *)
Definition runFrame (cv : Conversation) (cb : FrameCallback)
  : completion Conversation :=
  match cb with
  | ForceSnapFrame =>
    r <- enforce (snapLayout cv) (container cv) None true ;;
    let '(s', c', _) := r in
    Normal {| container := c';
              scrollBehavior := scrollBehavior cv;
              scrollBtn := scrollBtn cv;
              config := config cv;
              scrollLatch := scrollLatch cv;
              snapLayout := s';
              isStreaming := isStreaming cv |}
  end.

Definition handleStreamScroll (cv : Conversation) : completion Conversation :=
  match isStreaming cv, getTarget (snapLayout cv) with
  | true, Some _ =>
    r <- enforce (snapLayout cv) (container cv) None false ;;
    let '(s', c', res) := r in
    let c'' :=
      if negb (ret_isSnapped res) then
        if Qeq_bool (ret_padding res) 0 && isLatched (scrollLatch cv)
        then scrollTo c' (scrollHeight c') false
        else c'
      else c' in
    Normal {| container := c'';
              scrollBehavior := scrollBehavior cv;
              scrollBtn := scrollBtn cv;
              config := config cv;
              scrollLatch := scrollLatch cv;
              snapLayout := s';
              isStreaming := isStreaming cv |}
  | _, _ =>
    Normal (if isLatched (scrollLatch cv) then scrollToBottom cv false else cv)
  end.

Definition endStreaming (cv : Conversation) : Conversation :=
  updateScrollButton
    {| container := container cv;
       scrollBehavior := scrollBehavior cv;
       scrollBtn := scrollBtn cv;
       config := config cv;
       scrollLatch := scrollLatch cv;
       snapLayout := snapLayout cv;
       isStreaming := false |}.

(** The resize observer's callback. *)
Definition onResize (cv : Conversation) : completion Conversation :=
  match getTarget (snapLayout cv) with
  | None => Normal cv
  | Some _ =>
    let height := rectHeight (container cv) in
    r <- enforce (snapLayout cv) (container cv) (Some height) false ;;
    let '(s', c', _) := r in
    Normal {| container := c';
              scrollBehavior := scrollBehavior cv;
              scrollBtn := scrollBtn cv;
              config := config cv;
              scrollLatch := scrollLatch cv;
              snapLayout := s';
              isStreaming := isStreaming cv |}
  end.

(** Successive [enforce] calls without [forceSnap]; before each call the
    environment (content growth, user scrolling, resizing) may have left the
    container in any state, so each call comes with the container it sees. *)
Fixpoint enforce_calls (s : SnapLayout) (calls : list (Container * option Q))
  : completion (SnapLayout * list EnforceResult) :=
  match calls with
  | [] => Normal (s, [])
  | (c, o) :: rest =>
    r <- enforce s c o false ;;
    let '(s1, _, res) := r in
    k <- enforce_calls s1 rest ;;
    let '(s2, ress) := k in
    Normal (s2, res :: ress)
  end.

(* ------------------------------------------------------------------------- *)
(** ** Prompt input ([PromptInput])

    [FileReader.readAsDataURL] is asynchronous: [handleFiles] only starts the
    readers, and each reader pushes its attachment later, when its [load]
    event is delivered.  The readers that were started and have not fired
    yet are part of the state. *)

Inductive AttachmentType : Type := image | video | audio | file.

Record File : Type := mkFile {
  file_name : string;
  file_type : string;       (* the MIME type *)
  file_dataURL : string     (* what the reader produces *)
}.

Record Attachment : Type := mkAttachment {
  att_type : AttachmentType;
  att_url : string;
  att_mediaType : string;
  att_filename : string;
  att_file : File
}.

Record PromptInput : Type := mkPromptInput {
  textarea_value : string;
  attachments : list Attachment;
  isBusy : bool;
  submit_disabled : bool;
  readers : list File       (* FileReaders in flight, in the order started *)
}.

Definition MAX_ATTACHMENTS : Z := 5.

(** A text is its sequence of code units, one [ascii] per code unit, for
    the code units up to 255.  Of these [String.prototype.trim] strips the
    control characters U+0009 to U+000D, the space U+0020 and the no-break
    space U+00A0. *)
Definition is_whitespace (a : ascii) : bool :=
  let n := nat_of_ascii a in
  ((9 <=? n) && (n <=? 13))%nat || (n =? 32)%nat || (n =? 160)%nat.

(** [value.trim().length > 0] *)
Fixpoint trimmed_nonempty (s : string) : bool :=
  match s with
  | EmptyString => false
  | String a rest => negb (is_whitespace a) || trimmed_nonempty rest
  end.

Definition updateSubmitState (p : PromptInput) : PromptInput :=
  let hasContent :=
    trimmed_nonempty (textarea_value p) || (0 <? List.length (attachments p))%nat in
  {| textarea_value := textarea_value p;
     attachments := attachments p;
     isBusy := isBusy p;
     submit_disabled := negb hasContent || isBusy p;
     readers := readers p |}.

(** [attachments.splice(index, 1)] *)
Fixpoint splice1 {A : Type} (index : nat) (l : list A) : list A :=
  match index, l with
  | _, [] => []
  | O, _ :: rest => rest
  | S i, x :: rest => x :: splice1 i rest
  end.

Definition removeAttachment (p : PromptInput) (index : nat) : PromptInput :=
  updateSubmitState
    {| textarea_value := textarea_value p;
       attachments := splice1 index (attachments p);
       isBusy := isBusy p;
       submit_disabled := submit_disabled p;
       readers := readers p |}.

Definition handleFiles (p : PromptInput) (files : list File) : PromptInput :=
  let remaining := (MAX_ATTACHMENTS - Z.of_nat (List.length (attachments p)))%Z in
  if (remaining <=? 0)%Z then p
  else
    {| textarea_value := textarea_value p;
       attachments := attachments p;
       isBusy := isBusy p;
       submit_disabled := submit_disabled p;
       readers := readers p ++ firstn (Z.to_nat remaining) files |}.

(** The [change] listener of the file input. *)
Definition onFileInputChange (p : PromptInput) (files : list File)
  : PromptInput :=
  if (0 <? List.length files)%nat then handleFiles p files else p.

(** The attachment a reader's [onload] builds for its file. *)
Definition attachmentOf (f : File) : Attachment :=
  {| att_type :=
       if prefix "image/"%string (file_type f) then image
       else if prefix "video/"%string (file_type f) then video
       else if prefix "audio/"%string (file_type f) then audio
       else file;
     att_url := file_dataURL f;
     att_mediaType := file_type f;
     att_filename := file_name f;
     att_file := f |}.

(** [reader.onload] of the [i]-th reader in flight. *)
Definition readerOnload (p : PromptInput) (i : nat) : PromptInput :=
  match nth_error (readers p) i with
  | None => p
  | Some f =>
    updateSubmitState
      {| textarea_value := textarea_value p;
         attachments := attachments p ++ [attachmentOf f];
         isBusy := isBusy p;
         submit_disabled := submit_disabled p;
         readers := splice1 i (readers p) |}
  end.

(** What can happen to the attachment list from outside. *)
Inductive InputEvent : Type :=
| SelectFiles (files : list File)
| ReaderLoaded (i : nat)
| ClickRemove (index : nat).

Definition input_step (p : PromptInput) (e : InputEvent) : PromptInput :=
  match e with
  | SelectFiles files => onFileInputChange p files
  | ReaderLoaded i => readerOnload p i
  | ClickRemove index => removeAttachment p index
  end.

Definition input_run (p : PromptInput) (events : list InputEvent)
  : PromptInput :=
  fold_left input_step events p.

Definition initialPromptInput : PromptInput :=
  updateSubmitState
    {| textarea_value := EmptyString; attachments := []; isBusy := false;
       submit_disabled := false; readers := [] |}.

(* ------------------------------------------------------------------------- *)
(** ** Quantities the statements below refer to *)

(** What [calculateOffset] yields on an element that is there. *)
Definition snapOffsetOf (c : Container) (el : Element) : Q :=
  Qmax 0 (offsetTop c el - getContainerPadding c).

(** The height [enforce] takes for the viewport:
    [overrideHeight || container.getBoundingClientRect().height]. *)
Definition viewportHeightOf (c : Container) (overrideHeight : option Q) : Q :=
  js_or_null overrideHeight (rectHeight c).

(** [neededPadding] as [enforce] computes it. *)
Definition neededPaddingOf (c : Container) (overrideHeight : option Q)
  (el : Element) : Q :=
  Qmax 0 (inject_Z (Qceiling
    (snapOffsetOf c el
     - (scrollHeight c - js_or (paddingBottom c) 0
        - viewportHeightOf c overrideHeight) + 1))).

(** [drift] as [enforce] computes it: the scroll offset is read after the
    padding has been applied. *)
Definition driftOf (c : Container) (overrideHeight : option Q) (el : Element)
  : Q :=
  Qabs (scrollTop (set_paddingBottom c (neededPaddingOf c overrideHeight el))
        - snapOffsetOf c el).

(** Clamping a scroll offset [v] to [0 .. max(0, m)]. *)
Definition clampTo (m v : Q) : Q := Qmax 0 (Qmin v (Qmax 0 m)).

(** The padding formula in the words of the specification: with
    [maxNaturalScroll = (content height - current bottom padding) - viewport
    height], the padding is [max(0, ceil(requiredOffset - maxNaturalScroll + 1))]. *)
Definition spec_neededPadding
  (requiredOffset contentH currentPadding viewportH : Q) : Q :=
  let maxNaturalScroll := (contentH - currentPadding) - viewportH in
  Qmax 0 (inject_Z (Qceiling (requiredOffset - maxNaturalScroll + 1))).

(** Scroll offsets that go strictly down, starting below [base]. *)
Fixpoint decreasing_from (base : Q) (events : list Container) : Prop :=
  match events with
  | [] => True
  | c :: rest => scrollTop c < base /\ decreasing_from (scrollTop c) rest
  end.

(** The scenario of the specification: viewport 500 high, content 500 high
    (no scrollbar), no bottom padding, the target 600 below the top. *)
Definition scenario_container : Container :=
  {| scrollTop := 0; contentHeight := 500; styleHeight := 500;
     borderHeight := 0; stylePaddingTop := 0; stylePaddingBottom := 0;
     offsetTop := fun _ => 600 |}.

(** A viewport 500 high over 2000 of content, scrolled to [t]. *)
Definition scenario_at (t : Q) : Container :=
  {| scrollTop := t; contentHeight := 2000; styleHeight := 500;
     borderHeight := 0; stylePaddingTop := 0; stylePaddingBottom := 0;
     offsetTop := fun _ => 600 |}.

(** A viewport 500 high whose content, 300 high, does not fill it; the
    target 100 below the top. *)
Definition short_container : Container :=
  {| scrollTop := 0; contentHeight := 300; styleHeight := 500;
     borderHeight := 0; stylePaddingTop := 0; stylePaddingBottom := 0;
     offsetTop := fun _ => 100 |}.

(** A viewport 500 high at the bottom of 900 of content: the target, 600
    below the top, is out of reach without padding. *)
Definition streaming_container : Container :=
  {| scrollTop := 400; contentHeight := 900; styleHeight := 500;
     borderHeight := 0; stylePaddingTop := 0; stylePaddingBottom := 0;
     offsetTop := fun _ => 600 |}.

(** The same viewport with the padding of 201 the target needs, scrolled to
    [t]. *)
Definition pinned_at (t : Q) : Container :=
  {| scrollTop := t; contentHeight := 900; styleHeight := 500;
     borderHeight := 0; stylePaddingTop := 0; stylePaddingBottom := 201;
     offsetTop := fun _ => 600 |}.

Definition scenario_snap : SnapLayout :=
  {| target := Some 0%nat; isSnapped := true |}.

(** A conversation over the scenario's viewport, in the middle of a
    streaming episode. *)
Definition scenario_conversation : Conversation :=
  {| container := scenario_container; scrollBehavior := FromStylesheet;
     scrollBtn := None; config := DEFAULT_CONFIG;
     scrollLatch := createScrollLatch; snapLayout := scenario_snap;
     isStreaming := true |}.

(** A conversation that follows the bottom of 900 of content. *)
Definition streaming_conversation : Conversation :=
  {| container := streaming_container; scrollBehavior := FromStylesheet;
     scrollBtn := None; config := DEFAULT_CONFIG;
     scrollLatch := createScrollLatch; snapLayout := createSnapLayout;
     isStreaming := false |}.

(** A fresh conversation over the short content. *)
Definition short_conversation : Conversation :=
  {| container := short_container; scrollBehavior := FromStylesheet;
     scrollBtn := None; config := DEFAULT_CONFIG;
     scrollLatch := createScrollLatch; snapLayout := createSnapLayout;
     isStreaming := false |}.

(** The bound the check aims at: attachments in the list plus readers in
    flight. *)
Definition within_limit (p : PromptInput) : Prop :=
  (Z.of_nat (List.length (attachments p) + List.length (readers p))
   <= MAX_ATTACHMENTS)%Z.

(** Two selections of five files each, made before any reader has fired. *)
Definition sample_file (n : string) : File :=
  {| file_name := n; file_type := "image/png"; file_dataURL := "data:" |}.

Definition five_files : list File :=
  map sample_file ["a"; "b"; "c"; "d"; "e"]%string.

Definition overshoot_trace : list InputEvent :=
  [SelectFiles five_files; SelectFiles five_files]
  ++ repeat (ReaderLoaded 0) 10.

(** The input after five files have been selected and read. *)
Definition loaded_input : PromptInput :=
  input_run initialPromptInput
    (SelectFiles five_files :: repeat (ReaderLoaded 0) 5).

(* ------------------------------------------------------------------------- *)
(** ** Prompt input: the rest of the component

    The preview strip is redrawn from [attachments] by [renderPreviews]
    after every change and carries no state of its own; focus and CSS
    classes are left out. *)

(** [value.trim()] *)
Fixpoint trim_start (s : string) : string :=
  match s with
  | EmptyString => EmptyString
  | String a rest => if is_whitespace a then trim_start rest else s
  end.

Fixpoint trim_end (s : string) : string :=
  match s with
  | EmptyString => EmptyString
  | String a rest =>
    match trim_end rest with
    | EmptyString => if is_whitespace a then EmptyString else String a EmptyString
    | r => String a r
    end
  end.

Definition trim (s : string) : string := trim_end (trim_start s).

(** The no-break space, and two texts with it: one blank, one with a word
    in it. *)
Definition no_break_space : ascii := ascii_of_nat 160.

Definition blank_text : string :=
  String " " (String no_break_space (String "009" EmptyString)).

Definition padded_text : string :=
  String no_break_space (" hi" ++ String no_break_space EmptyString).

(** [hasContent] of [updateSubmitState]. *)
Definition hasContent (p : PromptInput) : bool :=
  trimmed_nonempty (textarea_value p) || (0 <? List.length (attachments p))%nat.

(** What [onSubmit] is called with. *)
Definition Submission : Type := (string * list Attachment)%type.

Definition submit (p : PromptInput) : PromptInput * option Submission :=
  if isBusy p then (p, None)
  else
    let value := trim (textarea_value p) in
    if (value =? EmptyString)%string && (List.length (attachments p) =? 0)%nat
    then (p, None)
    else
      (updateSubmitState
         {| textarea_value := EmptyString;
            attachments := [];
            isBusy := isBusy p;
            submit_disabled := submit_disabled p;
            readers := readers p |},
       Some (value, attachments p)).

(** The user edits the textarea; its [input] listener runs. *)
Definition onInput (p : PromptInput) (value : string) : PromptInput :=
  updateSubmitState
    {| textarea_value := value;
       attachments := attachments p;
       isBusy := isBusy p;
       submit_disabled := submit_disabled p;
       readers := readers p |}.

(** The [keydown] listener of the textarea. *)
Definition onKeydown (p : PromptInput) (key : string) (shiftKey : bool)
  : PromptInput * option Submission :=
  if (key =? "Enter")%string && negb shiftKey then
    if negb (isBusy p) then submit p else (p, None)
  else (p, None).

(** [clear] of the returned controller. *)
Definition input_clear (p : PromptInput) : PromptInput :=
  updateSubmitState
    {| textarea_value := EmptyString;
       attachments := [];
       isBusy := isBusy p;
       submit_disabled := submit_disabled p;
       readers := readers p |}.

Definition getValue (p : PromptInput) : string := textarea_value p.

Definition setValue (p : PromptInput) (value : string) : PromptInput :=
  updateSubmitState
    {| textarea_value := value;
       attachments := attachments p;
       isBusy := isBusy p;
       submit_disabled := submit_disabled p;
       readers := readers p |}.

Definition getAttachments (p : PromptInput) : list Attachment := attachments p.

Definition clearAttachments (p : PromptInput) : PromptInput :=
  updateSubmitState
    {| textarea_value := textarea_value p;
       attachments := [];
       isBusy := isBusy p;
       submit_disabled := submit_disabled p;
       readers := readers p |}.

Definition setBusy (p : PromptInput) (busy : bool) : PromptInput :=
  if busy then
    {| textarea_value := textarea_value p;
       attachments := attachments p;
       isBusy := true;
       submit_disabled := true;
       readers := readers p |}
  else
    updateSubmitState
      {| textarea_value := textarea_value p;
         attachments := attachments p;
         isBusy := false;
         submit_disabled := submit_disabled p;
         readers := readers p |}.

(** Everything that can reach the component: DOM events and calls on the
    controller it returns. *)
Inductive InputOp : Type :=
| OpEvent (e : InputEvent)
| OpInput (value : string)
| OpKeydown (key : string) (shiftKey : bool)
| OpClickSubmit
| OpSubmit
| OpClear
| OpSetValue (value : string)
| OpClearAttachments
| OpSetBusy (busy : bool).

Definition op_step (p : PromptInput) (op : InputOp)
  : PromptInput * option Submission :=
  match op with
  | OpEvent e => (input_step p e, None)
  | OpInput value => (onInput p value, None)
  | OpKeydown key shiftKey => onKeydown p key shiftKey
  | OpClickSubmit => submit p
  | OpSubmit => submit p
  | OpClear => (input_clear p, None)
  | OpSetValue value => (setValue p value, None)
  | OpClearAttachments => (clearAttachments p, None)
  | OpSetBusy busy => (setBusy p busy, None)
  end.

(** A run of operations, with the submissions it hands to [onSubmit], oldest
    first. *)
Fixpoint op_run (p : PromptInput) (ops : list InputOp)
  : PromptInput * list Submission :=
  match ops with
  | [] => (p, [])
  | op :: rest =>
    let '(p1, out) := op_step p op in
    let '(p2, outs) := op_run p1 rest in
    (p2, match out with Some sub => sub :: outs | None => outs end)
  end.

(** The submit button shows what [updateSubmitState] would compute. *)
Definition submit_in_sync (p : PromptInput) : Prop :=
  submit_disabled p = negb (hasContent p) || isBusy p.

(** Files are only ever selected while no reader is in flight. *)
Fixpoint quiescent_selections (p : PromptInput) (events : list InputEvent)
  : Prop :=
  match events with
  | [] => True
  | e :: rest =>
    match e with SelectFiles _ => readers p = [] | _ => True end /\
    quiescent_selections (input_step p e) rest
  end.

(* ------------------------------------------------------------------------- *)
(** ** Streaming a message's text ([streamContent] in [message.js])

    The promise and the interval of one [streamContent] call on a message
    that is not streaming already: [stream_tick] is the interval's callback;
    how fast the ticks come ([speed]) plays no role. *)

Record Stream : Type := mkStream {
  stream_text : string;
  stream_index : nat;
  currentContent : string;
  shown : string;                       (* last text given to safeSetContent *)
  hasOnUpdate : bool;
  streamingInterval : bool;             (* the interval is running *)
  resolved : bool;
  updates : list (string * nat * nat)   (* onUpdate calls, oldest first *)
}.

Definition streamContent (text : string) (onUpdate : bool) : Stream :=
  {| stream_text := text; stream_index := 0;
     currentContent := EmptyString; shown := EmptyString;
     hasOnUpdate := onUpdate; streamingInterval := true;
     resolved := false; updates := [] |}.

Definition stream_tick (s : Stream) : Stream :=
  if streamingInterval s then
    if (stream_index s <? String.length (stream_text s))%nat then
      (* text[index], in range here *)
      let content :=
        (currentContent s ++ substring (stream_index s) 1 (stream_text s))%string in
      {| stream_text := stream_text s;
         stream_index := S (stream_index s);
         currentContent := content;
         shown := content;
         hasOnUpdate := hasOnUpdate s;
         streamingInterval := true;
         resolved := resolved s;
         updates :=
           if hasOnUpdate s
           then updates s ++ [(content, S (stream_index s),
                               String.length (stream_text s))]
           else updates s |}
    else
      {| stream_text := stream_text s;
         stream_index := stream_index s;
         currentContent := currentContent s;
         shown := shown s;
         hasOnUpdate := hasOnUpdate s;
         streamingInterval := false;
         resolved := true;
         updates := updates s |}
  else s.

Definition stream_ticks (n : nat) (s : Stream) : Stream :=
  Nat.iter n stream_tick s.

(** The [onUpdate] calls for the first [n] characters of [text]. *)
Definition updates_upto (text : string) (n : nat) : list (string * nat * nat) :=
  map (fun i => (substring 0 (S i) text, S i, String.length text)) (seq 0 n).

(* ------------------------------------------------------------------------- *)
(** ** More on scroll events *)

(** Scroll offsets that never go down, starting at or above [base]. *)
Fixpoint nondecreasing_from (base : Q) (events : list Container) : Prop :=
  match events with
  | [] => True
  | c :: rest => base <= scrollTop c /\ nondecreasing_from (scrollTop c) rest
  end.

(* ========================================================================= *)
(** * Properties *)

(* ------------------------------------------------------------------------- *)
(** ** Numbers *)

Lemma Qltb_true (a b : Q) : Qltb a b = true <-> a < b.
Proof.
  unfold Qltb. rewrite negb_true_iff.
  split; intro H.
  - apply Qnot_le_lt. intro L. apply Qle_bool_iff in L. congruence.
  - destruct (Qle_bool b a) eqn:E; [|reflexivity].
    apply Qle_bool_iff in E. exfalso. lra.
Qed.

Lemma Qltb_false (a b : Q) : Qltb a b = false <-> b <= a.
Proof.
  unfold Qltb. rewrite negb_false_iff. apply Qle_bool_iff.
Qed.

Lemma js_or_zero (x : Q) : js_or x 0 == x.
Proof.
  unfold js_or. destruct (Qeq_bool x 0) eqn:E; [|reflexivity].
  apply Qeq_bool_iff in E. symmetry. exact E.
Qed.

Lemma Qabs_spec (x : Q) :
  (0 <= x /\ Qabs x == x) \/ (x <= 0 /\ Qabs x == - x).
Proof.
  destruct (Qlt_le_dec x 0) as [L|L].
  - right. split; [lra|]. apply Qabs_neg. lra.
  - left. split; [assumption|]. apply Qabs_pos. assumption.
Qed.

Lemma Qceiling_bounds (x : Q) :
  x <= inject_Z (Qceiling x) /\ inject_Z (Qceiling x) < x + 1.
Proof.
  split; [apply Qle_ceiling|].
  pose proof (Qceiling_lt x) as H.
  unfold Z.sub in H. rewrite inject_Z_plus, inject_Z_opp in H.
  change (inject_Z 1) with 1 in H. lra.
Qed.

Lemma Qceiling_Qeq (x y : Q) : x == y -> Qceiling x = Qceiling y.
Proof.
  intro E. apply Z.le_antisymm; apply Qceiling_resp_le; lra.
Qed.

(** Case analysis on every [Qmax], [Qmin] and [Qabs] in sight, then linear
    arithmetic. *)
Ltac name_minmax :=
  repeat match goal with
  | |- context [Qmax ?a ?b] =>
      let m := fresh "m" in
      pose proof (Q.max_spec a b); set (m := Qmax a b) in *; clearbody m
  | |- context [Qmin ?a ?b] =>
      let m := fresh "m" in
      pose proof (Q.min_spec a b); set (m := Qmin a b) in *; clearbody m
  | |- context [Qabs ?a] =>
      let m := fresh "m" in
      pose proof (Qabs_spec a); set (m := Qabs a) in *; clearbody m
  | _ : context [Qmax ?a ?b] |- _ =>
      let m := fresh "m" in
      pose proof (Q.max_spec a b); set (m := Qmax a b) in *; clearbody m
  | _ : context [Qmin ?a ?b] |- _ =>
      let m := fresh "m" in
      pose proof (Q.min_spec a b); set (m := Qmin a b) in *; clearbody m
  | _ : context [Qabs ?a] |- _ =>
      let m := fresh "m" in
      pose proof (Qabs_spec a); set (m := Qabs a) in *; clearbody m
  end.

Ltac split_cases :=
  repeat match goal with
  | H : _ /\ _ |- _ => destruct H
  | H : _ \/ _ |- _ => destruct H
  end.

Ltac minmax := name_minmax; split_cases; try lra.

Lemma Qmax_Qeq (a b a' b' : Q) : a == a' -> b == b' -> Qmax a b == Qmax a' b'.
Proof. intros. minmax. Qed.

(* ------------------------------------------------------------------------- *)
(** ** The viewport *)

Lemma paddingTop_nonneg (c : Container) : 0 <= paddingTop c.
Proof. unfold paddingTop. minmax. Qed.

Lemma paddingBottom_nonneg (c : Container) : 0 <= paddingBottom c.
Proof. unfold paddingBottom. minmax. Qed.

Lemma clientHeight_nonneg (c : Container) : 0 <= clientHeight c.
Proof.
  pose proof (paddingTop_nonneg c). pose proof (paddingBottom_nonneg c).
  unfold clientHeight. minmax.
Qed.

Lemma clientHeight_le_scrollHeight (c : Container) :
  clientHeight c <= scrollHeight c.
Proof. unfold scrollHeight. minmax. Qed.

Lemma clampScroll_range (c : Container) (v : Q) :
  0 <= clampScroll c v /\ clampScroll c v <= maxScrollTop c.
Proof.
  unfold clampScroll. set (m := maxScrollTop c).
  assert (0 <= m) by (unfold m, maxScrollTop; minmax).
  clearbody m. minmax.
Qed.

Lemma clampScroll_id (c : Container) (v : Q) :
  0 <= v -> v <= scrollHeight c - clientHeight c -> clampScroll c v == v.
Proof. unfold clampScroll, maxScrollTop. intros. minmax. Qed.

Lemma scrollHeight_set_scrollTop (c : Container) (v : Q) :
  scrollHeight (set_scrollTop c v) = scrollHeight c.
Proof. reflexivity. Qed.

Lemma clientHeight_set_scrollTop (c : Container) (v : Q) :
  clientHeight (set_scrollTop c v) = clientHeight c.
Proof. reflexivity. Qed.

Lemma paddingBottom_set_scrollTop (c : Container) (v : Q) :
  paddingBottom (set_scrollTop c v) = paddingBottom c.
Proof. reflexivity. Qed.

Lemma paddingBottom_set_paddingBottom (c : Container) (p : Q) :
  paddingBottom (set_paddingBottom c p) = Qmax 0 p.
Proof. reflexivity. Qed.

Lemma paddingBottom_applied (c : Container) (p : Q) :
  0 <= p -> paddingBottom (set_paddingBottom c p) == p.
Proof. intro Hp. rewrite paddingBottom_set_paddingBottom. minmax. Qed.

(** The box grows with the bottom padding once the paddings no longer fit. *)
Lemma clientHeight_set_paddingBottom (c : Container) (p : Q) :
  clientHeight (set_paddingBottom c p)
  = Qmax (styleHeight c) (paddingTop c + Qmax 0 p).
Proof. reflexivity. Qed.

Lemma scrollHeight_set_paddingBottom (c : Container) (p : Q) :
  scrollHeight (set_paddingBottom c p)
  = Qmax (clientHeight (set_paddingBottom c p)) (contentHeight c + Qmax 0 p).
Proof. reflexivity. Qed.

Lemma maxScrollTop_set_scrollTop (c : Container) (v : Q) :
  maxScrollTop (set_scrollTop c v) = maxScrollTop c.
Proof. reflexivity. Qed.

Lemma scrollTop_is_clamped (c : Container) (v : Q) :
  scrollTop (set_scrollTop c v) = clampScroll c v.
Proof. reflexivity. Qed.

Lemma scrollTop_set_scrollTop (c : Container) (v : Q) :
  scrollTop (set_scrollTop c v) = clampTo (scrollHeight c - clientHeight c) v.
Proof. reflexivity. Qed.

Lemma scrollTop_set_paddingBottom (c : Container) (p : Q) :
  scrollTop (set_paddingBottom c p)
  = clampTo (scrollHeight (set_paddingBottom c p)
             - clientHeight (set_paddingBottom c p)) (scrollTop c).
Proof. reflexivity. Qed.

(** Padding the box never takes scroll range away from the content it had
    without its padding. *)
Lemma natural_range_kept (c : Container) (p : Q) :
  0 <= p ->
  (scrollHeight c - paddingBottom c) - clientHeight c
  <= scrollHeight (set_paddingBottom c p) - clientHeight (set_paddingBottom c p)
  \/ (scrollHeight c - paddingBottom c) - clientHeight c <= 0.
Proof.
  intro Hp.
  rewrite scrollHeight_set_paddingBottom, clientHeight_set_paddingBottom.
  unfold scrollHeight, clientHeight.
  pose proof (paddingTop_nonneg c) as Ht.
  pose proof (paddingBottom_nonneg c) as Hb.
  set (pt := paddingTop c) in *. clearbody pt.
  set (pb := paddingBottom c) in *. clearbody pb.
  set (h := styleHeight c). clearbody h.
  set (n := contentHeight c). clearbody n.
  destruct (Qlt_le_dec (Qmax (Qmax h (pt + pb)) (n + pb) - pb - Qmax h (pt + pb)) 0)
    as [L|L]; [right; lra|left].
  minmax.
Qed.

(** A scroll offset inside the range of the unpadded content survives any
    bottom padding. *)
Lemma scrollTop_kept_under_padding (c : Container) (p : Q) :
  0 <= p ->
  0 <= scrollTop c ->
  scrollTop c <= (scrollHeight c - paddingBottom c) - clientHeight c ->
  scrollTop (set_paddingBottom c p) == scrollTop c.
Proof.
  intros Hp H0 Hin.
  rewrite scrollTop_set_paddingBottom.
  pose proof (natural_range_kept c p Hp) as Hk.
  set (m' := scrollHeight (set_paddingBottom c p)
             - clientHeight (set_paddingBottom c p)) in *. clearbody m'.
  set (m := (scrollHeight c - paddingBottom c) - clientHeight c) in *. clearbody m.
  set (t := scrollTop c) in *. clearbody t.
  unfold clampTo. minmax.
Qed.

(* ------------------------------------------------------------------------- *)
(** ** Snap layout: what [enforce] does, case by case *)

Lemma calculateOffset_Some (c : Container) (el : Element) :
  calculateOffset c (Some el) = Normal (snapOffsetOf c el).
Proof. reflexivity. Qed.

Lemma enforce_None (s : SnapLayout) (c : Container) (o : option Q) (f : bool) :
  target s = None ->
  enforce s c o f =
  Normal (s, c, {| ret_isSnapped := false; ret_padding := 0 |}).
Proof. intro H. unfold enforce. rewrite H. reflexivity. Qed.

Lemma enforce_Some (s : SnapLayout) (c : Container) (o : option Q) (f : bool)
  (el : Element) :
  target s = Some el ->
  enforce s c o f =
  let neededPadding := neededPaddingOf c o el in
  let c1 := set_paddingBottom c neededPadding in
  if f then
    Normal ({| target := Some el; isSnapped := true |},
            set_scrollTop c1 (snapOffsetOf c el),
            {| ret_isSnapped := true; ret_padding := neededPadding |})
  else if isSnapped s then
    if Qltb 10 (driftOf c o el) then
      Normal ({| target := Some el; isSnapped := false |}, c1,
              {| ret_isSnapped := false; ret_padding := neededPadding |})
    else if Qltb 0 (driftOf c o el) then
      Normal (s, set_scrollTop c1 (snapOffsetOf c el),
              {| ret_isSnapped := true; ret_padding := neededPadding |})
    else
      Normal (s, c1, {| ret_isSnapped := true; ret_padding := neededPadding |})
  else
    Normal (s, c1, {| ret_isSnapped := false; ret_padding := neededPadding |}).
Proof.
  intro H. unfold enforce. rewrite H. cbn [calculateOffset bind].
  fold (snapOffsetOf c el). fold (viewportHeightOf c o).
  fold (neededPaddingOf c o el). fold (driftOf c o el).
  destruct f; [reflexivity|].
  destruct (isSnapped s); reflexivity.
Qed.

Lemma snapOffsetOf_nonneg (c : Container) (el : Element) :
  0 <= snapOffsetOf c el.
Proof. unfold snapOffsetOf. minmax. Qed.

Lemma neededPaddingOf_nonneg (c : Container) (o : option Q) (el : Element) :
  0 <= neededPaddingOf c o el.
Proof. unfold neededPaddingOf. minmax. Qed.

Lemma neededPaddingOf_spec (c : Container) (o : option Q) (el : Element) :
  neededPaddingOf c o el ==
  spec_neededPadding (snapOffsetOf c el) (scrollHeight c) (paddingBottom c)
    (viewportHeightOf c o).
Proof.
  unfold neededPaddingOf, spec_neededPadding. cbv zeta.
  apply Qmax_Qeq; [reflexivity|].
  erewrite Qceiling_Qeq; [reflexivity|].
  rewrite js_or_zero. reflexivity.
Qed.

(** The padding leaves room for more than the snap offset above what
    [enforce] takes for the natural maximum. *)
Lemma neededPaddingOf_room (c : Container) (o : option Q) (el : Element) :
  snapOffsetOf c el + 1
  <= (scrollHeight c - paddingBottom c) + neededPaddingOf c o el
     - viewportHeightOf c o.
Proof.
  unfold neededPaddingOf.
  pose proof (js_or_zero (paddingBottom c)) as Hp.
  destruct (Qceiling_bounds
    (snapOffsetOf c el
     - (scrollHeight c - js_or (paddingBottom c) 0 - viewportHeightOf c o) + 1))
    as [Hc _].
  set (z := inject_Z (Qceiling _)) in *. clearbody z.
  minmax.
Qed.

Ltac enforce_cases s c o f el H :=
  rewrite (enforce_Some s c o f el H); cbv zeta;
  destruct f;
  [ | destruct (isSnapped s) eqn:?;
      [ destruct (Qltb 10 (driftOf c o el)) eqn:?;
        [ | destruct (Qltb 0 (driftOf c o el)) eqn:? ] | ] ].

Lemma ret_padding_is_needed
  (s : SnapLayout) (c : Container) (o : option Q) (f : bool) (el : Element) :
  target s = Some el ->
  exists s' c' r,
    enforce s c o f = Normal (s', c', r) /\
    ret_padding r = neededPaddingOf c o el /\
    paddingBottom c' == neededPaddingOf c o el.
Proof.
  intro H. pose proof (neededPaddingOf_nonneg c o el) as Hn.
  enforce_cases s c o f el H;
    (do 3 eexists; split; [reflexivity|]; split; [reflexivity|];
     rewrite ?paddingBottom_set_scrollTop;
     apply paddingBottom_applied; exact Hn).
Qed.

(** Running [enforce] on a given state: the call in the goal is replaced by
    what it evaluates to. *)
Ltac evaluate_enforce :=
  match goal with
  | |- context [enforce ?s ?c ?o ?f] =>
      let E := fresh "E" in
      destruct (enforce s c o f) as [[[? ?] ?]|?] eqn:E;
      vm_compute in E; [injection E as <- <- <-|discriminate E]
  end.

(** C1.  The padding [enforce] applies and returns is
    [max(0, ceil(requiredOffset - maxNaturalScroll + 1))], but the "+1" does
    not make the required offset reachable when the content does not fill the
    viewport: over 300 of content in a viewport 500 high and a target 100
    below the top, [scrollHeight] is 500, the padding comes out as 101, and
    [scrollHeight] is 500 still, so that the viewport cannot scroll at all.
    Nor does it in the scenario of the specification: the padding of 601 is
    more than the box, 500 high, can hold; the box grows to 601 and the
    viewport scrolls no further than 500, short of the required 600. *)
Theorem padding_formula_misses_reachability (f : bool) :
  (exists s' c' r,
     calculateOffset short_container (target scenario_snap) = Normal 100 /\
     enforce scenario_snap short_container None f = Normal (s', c', r) /\
     ret_padding r ==
       spec_neededPadding 100 (scrollHeight short_container)
         (paddingBottom short_container)
         (viewportHeightOf short_container None) /\
     ret_padding r == 101 /\
     paddingBottom c' == 101 /\
     maxScrollTop c' == 0 /\
     ~ reachable c' 100) /\
  (exists s' c' r,
     calculateOffset scenario_container (target scenario_snap) = Normal 600 /\
     enforce scenario_snap scenario_container None f = Normal (s', c', r) /\
     ret_padding r == 601 /\
     paddingBottom c' == 601 /\
     clientHeight c' == 601 /\
     maxScrollTop c' == 500 /\
     ~ reachable c' 600).
Proof.
  split; destruct f;
    (evaluate_enforce; do 3 eexists;
     split; [vm_compute; reflexivity|]; split; [reflexivity|];
     split; [vm_compute; reflexivity|]; split; [vm_compute; reflexivity|];
     split; [vm_compute; reflexivity|]; split; [vm_compute; reflexivity|];
     intros [_ Hle]; vm_compute in Hle; apply Hle; reflexivity).
Qed.

(** C2, as the specification words it, fails: in the scenario the padding
    [enforce] computes is not 101. *)
Lemma scenario_padding_is_not_101 :
  ~ (exists s' c' r,
       enforce scenario_snap scenario_container None false
         = Normal (s', c', r) /\
       ret_padding r == 101).
Proof.
  intros (s' & c' & r & H & E).
  vm_compute in H. injection H as _ _ Hr. subst r.
  vm_compute in E. discriminate E.
Qed.

(** C2, amended.  With viewport height 500, content height 500 (no
    scrollbar, no bottom padding yet) and a target whose required offset is
    600, [enforce] computes, returns and applies a padding of
    601 = 600 - (500 - 500) + 1. *)
Theorem scenario_padding_601
  (s : SnapLayout) (c : Container) (f : bool) (requiredOffset : Q) :
  rectHeight c == 500 ->
  clientHeight c == 500 ->
  scrollHeight c == 500 ->
  paddingBottom c == 0 ->
  calculateOffset c (target s) = Normal requiredOffset ->
  requiredOffset == 600 ->
  exists s' c' r,
    enforce s c None f = Normal (s', c', r) /\
    ret_padding r == 601 /\
    paddingBottom c' == 601.
Proof.
  intros Hrect Hclient Hsh Hpad Hcalc Hreq.
  destruct (target s) as [el|] eqn:H; [|discriminate Hcalc].
  rewrite calculateOffset_Some in Hcalc.
  injection Hcalc as Hcalc. subst requiredOffset.
  assert (Hn : neededPaddingOf c None el == 601).
  { rewrite neededPaddingOf_spec. unfold spec_neededPadding. cbv zeta.
    change (viewportHeightOf c None) with (rectHeight c).
    rewrite (Qceiling_Qeq _ (inject_Z 601)).
    - rewrite Qceiling_Z. reflexivity.
    - change (inject_Z 601) with 601. lra. }
  destruct (ret_padding_is_needed s c None f el H)
    as (s' & c' & r & He & Hr & Hp).
  exists s', c', r. split; [exact He|]. rewrite Hr, Hp. split; exact Hn.
Qed.

Lemma scenario_padding_601_witness :
  exists s' c' r,
    enforce scenario_snap scenario_container None false = Normal (s', c', r) /\
    ret_padding r == 601 /\
    paddingBottom c' == 601.
Proof.
  apply (scenario_padding_601 scenario_snap scenario_container false 600);
    reflexivity.
Defined.

(** C9.  Without a snap target [enforce] returns
    [{ isSnapped: false, padding: 0 }] and touches neither the snap state
    nor the viewport (bottom padding and scroll offset included), whatever
    the override height and even when [forceSnap] is set. *)
Theorem enforce_without_target
  (s : SnapLayout) (c : Container) (o : option Q) (f : bool) :
  target s = None ->
  exists s' c' r,
    enforce s c o f = Normal (s', c', r) /\
    ret_isSnapped r = false /\ ret_padding r = 0 /\
    s' = s /\ c' = c /\
    paddingBottom c' = paddingBottom c /\ scrollTop c' = scrollTop c.
Proof.
  intro H. exists s, c, {| ret_isSnapped := false; ret_padding := 0 |}.
  rewrite (enforce_None s c o f H). repeat split.
Qed.

Lemma enforce_without_target_witness :
  exists s' c' r,
    enforce createSnapLayout scenario_container (Some 300) true
      = Normal (s', c', r) /\
    ret_isSnapped r = false /\ ret_padding r = 0 /\
    s' = createSnapLayout /\ c' = scenario_container /\
    paddingBottom c' = paddingBottom scenario_container /\
    scrollTop c' = scrollTop scenario_container.
Proof.
  apply (enforce_without_target createSnapLayout scenario_container
           (Some 300) true).
  reflexivity.
Defined.

(* ------------------------------------------------------------------------- *)
(** ** Pinning a message *)

(** A snap offset lands where the padded content leaves room for it: the
    content fills the viewport (its [scrollHeight] is that of the content),
    and the box with the padding applied is no higher than the viewport
    height [enforce] worked with. *)
Lemma snap_offset_lands (c : Container) (o : option Q) (el : Element) :
  clientHeight c <= contentHeight c + paddingBottom c ->
  clientHeight (set_paddingBottom c (neededPaddingOf c o el))
    <= viewportHeightOf c o ->
  clampScroll (set_paddingBottom c (neededPaddingOf c o el))
    (snapOffsetOf c el) == snapOffsetOf c el.
Proof.
  intros Hfill Hbox.
  pose proof (neededPaddingOf_room c o el) as Hr.
  pose proof (neededPaddingOf_nonneg c o el) as Hn.
  pose proof (snapOffsetOf_nonneg c el) as H0.
  apply clampScroll_id; [assumption|].
  rewrite scrollHeight_set_paddingBottom.
  unfold scrollHeight in Hr.
  set (b := clientHeight (set_paddingBottom c (neededPaddingOf c o el))) in *.
  clearbody b.
  set (n := neededPaddingOf c o el) in *. clearbody n.
  set (v := snapOffsetOf c el) in *. clearbody v.
  set (a := clientHeight c) in *. clearbody a.
  minmax.
Qed.

(** C3.  [scrollToMessage(X)] schedules one frame callback, the forced
    [enforce(null, true)], and that call sets [isSnapped]; but it does not
    take the viewport to [calculateOffset(X)] when the content does not fill
    the viewport.  Over 300 of content in a viewport 500 high, with X 100
    below the top, the padding of 101 leaves [scrollHeight] at 500: the
    assignment [scrollTop = 100] is clamped to 0.  In the scenario of the
    specification the viewport ends at 500, not at 600. *)
Theorem forced_snap_misses_offset :
  (exists cv1 s' c' r,
     scrollToMessage short_conversation (Some 0%nat) = (cv1, [ForceSnapFrame]) /\
     enforce (snapLayout cv1) (container cv1) None true = Normal (s', c', r) /\
     calculateOffset c' (Some 0%nat) = Normal 100 /\
     scrollTop c' == 0 /\
     ret_isSnapped r = true /\
     isSnapped s' = true /\
     (exists cv2, runFrame cv1 ForceSnapFrame = Normal cv2 /\
                  container cv2 = c' /\ snapLayout cv2 = s')) /\
  (exists cv1 s' c' r,
     scrollToMessage scenario_conversation (Some 0%nat)
       = (cv1, [ForceSnapFrame]) /\
     enforce (snapLayout cv1) (container cv1) None true = Normal (s', c', r) /\
     calculateOffset c' (Some 0%nat) = Normal 600 /\
     scrollTop c' == 500 /\
     ret_isSnapped r = true).
Proof.
  split.
  - do 4 eexists.
    split; [reflexivity|]. split; [reflexivity|].
    split; [vm_compute; reflexivity|]. split; [vm_compute; reflexivity|].
    split; [reflexivity|]. split; [reflexivity|].
    eexists. split; [reflexivity|]. split; reflexivity.
  - do 4 eexists.
    split; [reflexivity|]. split; [reflexivity|].
    split; [vm_compute; reflexivity|]. split; [vm_compute; reflexivity|].
    reflexivity.
Qed.

(* ------------------------------------------------------------------------- *)
(** ** Breaking the snap *)

Lemma enforce_unsnapped_stays (s : SnapLayout) (c : Container) (o : option Q) :
  isSnapped s = false ->
  exists c' r,
    enforce s c o false = Normal (s, c', r) /\ ret_isSnapped r = false.
Proof.
  intro Hs. destruct (target s) as [el|] eqn:H.
  - rewrite (enforce_Some s c o false el H). cbv zeta. rewrite Hs.
    do 2 eexists. split; reflexivity.
  - rewrite (enforce_None s c o false H).
    do 2 eexists. split; reflexivity.
Qed.

Lemma enforce_calls_unsnapped (calls : list (Container * option Q)) :
  forall s, isSnapped s = false ->
  exists rs,
    enforce_calls s calls = Normal (s, rs) /\
    Forall (fun r => ret_isSnapped r = false) rs.
Proof.
  induction calls as [|[c o] rest IH]; intros s Hs.
  - exists []. split; [reflexivity|constructor].
  - destruct (enforce_unsnapped_stays s c o Hs) as (c' & r & He & Hr).
    destruct (IH s Hs) as (rs & Hrest & Hall).
    exists (r :: rs). cbn [enforce_calls]. rewrite He. cbn [bind].
    rewrite Hrest. cbn [bind]. split; [reflexivity|].
    constructor; assumption.
Qed.

(** C4.  While snapped and without [forceSnap], a call whose computed drift
    exceeds 10 sets [isSnapped] to false; after that, whatever happens to
    the viewport in between, no run of further [enforce] calls without
    [forceSnap] brings it back to true, while a call with [forceSnap]
    does. *)
Theorem snap_break_is_sticky
  (s : SnapLayout) (c : Container) (o : option Q) (el : Element) :
  target s = Some el ->
  isSnapped s = true ->
  10 < driftOf c o el ->
  exists s1 c1 r1,
    enforce s c o false = Normal (s1, c1, r1) /\
    isSnapped s1 = false /\ ret_isSnapped r1 = false /\
    (forall calls, exists s2 rs,
        enforce_calls s1 calls = Normal (s2, rs) /\
        isSnapped s2 = false /\
        Forall (fun r => ret_isSnapped r = false) rs) /\
    (forall c' o', exists s3 c3 r3,
        enforce s1 c' o' true = Normal (s3, c3, r3) /\
        isSnapped s3 = true /\ ret_isSnapped r3 = true).
Proof.
  intros H Hs Hd. apply Qltb_true in Hd.
  rewrite (enforce_Some s c o false el H). cbv zeta. rewrite Hs, Hd.
  do 3 eexists. split; [reflexivity|].
  split; [reflexivity|]. split; [reflexivity|]. split.
  - intro calls.
    destruct (enforce_calls_unsnapped calls
                {| target := Some el; isSnapped := false |} eq_refl)
      as (rs & Hc & Hall).
    exists {| target := Some el; isSnapped := false |}, rs.
    split; [exact Hc|]. split; [reflexivity|exact Hall].
  - intros c' o'.
    rewrite (enforce_Some {| target := Some el; isSnapped := false |}
               c' o' true el eq_refl).
    cbv zeta.
    do 3 eexists. split; [reflexivity|]. split; reflexivity.
Qed.

Lemma snap_break_is_sticky_witness :
  exists s1 c1 r1,
    enforce scenario_snap scenario_container None false
      = Normal (s1, c1, r1) /\
    isSnapped s1 = false /\ ret_isSnapped r1 = false /\
    (forall calls, exists s2 rs,
        enforce_calls s1 calls = Normal (s2, rs) /\
        isSnapped s2 = false /\
        Forall (fun r => ret_isSnapped r = false) rs) /\
    (forall c' o', exists s3 c3 r3,
        enforce s1 c' o' true = Normal (s3, c3, r3) /\
        isSnapped s3 = true /\ ret_isSnapped r3 = true).
Proof.
  apply (snap_break_is_sticky scenario_snap scenario_container None 0%nat).
  - reflexivity.
  - reflexivity.
  - vm_compute. reflexivity.
Defined.

(* ------------------------------------------------------------------------- *)
(** ** Calling [enforce] again *)

(** C6.  [enforce] is not idempotent when the content does not fill the
    viewport: what it takes for the natural height,
    [scrollHeight - currentPadding], then depends on the padding it has
    applied itself.  Over 300 of content in a viewport 500 high, with the
    target 100 below the top, a second call on the state the first one left
    returns a padding of 202 where the first returned 101 (and a third 301,
    which is the first that lets the viewport reach the target), forced or
    not.  In the scenario of the specification the box grows with its
    padding, and the calls return 601, 702 and 803. *)
Theorem enforce_again_changes_padding (f : bool) :
  (exists s1 c1 r1,
     enforce scenario_snap short_container None f = Normal (s1, c1, r1) /\
     ret_padding r1 == 101 /\
     exists s2 c2 r2,
       enforce s1 c1 None f = Normal (s2, c2, r2) /\
       ret_padding r2 == 202 /\
       isSnapped s2 = isSnapped s1 /\
       exists s3 c3 r3,
         enforce s2 c2 None f = Normal (s3, c3, r3) /\
         ret_padding r3 == 301) /\
  (exists s1 c1 r1,
     enforce scenario_snap scenario_container None f = Normal (s1, c1, r1) /\
     ret_padding r1 == 601 /\
     exists s2 c2 r2,
       enforce s1 c1 None f = Normal (s2, c2, r2) /\
       ret_padding r2 == 702 /\
       isSnapped s2 = isSnapped s1 /\
       exists s3 c3 r3,
         enforce s2 c2 None f = Normal (s3, c3, r3) /\
         ret_padding r3 == 803).
Proof.
  split; destruct f;
    (evaluate_enforce; do 3 eexists;
     split; [reflexivity|]; split; [vm_compute; reflexivity|];
     evaluate_enforce; do 3 eexists;
     split; [reflexivity|]; split; [vm_compute; reflexivity|];
     split; [reflexivity|];
     evaluate_enforce; do 3 eexists;
     split; [reflexivity|]; vm_compute; reflexivity).
Qed.

(* ------------------------------------------------------------------------- *)
(** ** Scrolling to the bottom *)

Lemma clampTo_top (m h : Q) : m <= h -> clampTo m h == Qmax 0 m.
Proof. unfold clampTo. intros. minmax. Qed.



(* ------------------------------------------------------------------------- *)
(** ** Nothing negative, nothing thrown *)

Lemma enforce_completes
  (s : SnapLayout) (c : Container) (o : option Q) (f : bool) :
  exists s' c' r,
    enforce s c o f = Normal (s', c', r) /\
    0 <= ret_padding r /\
    (target s = None \/
     (paddingBottom c' == ret_padding r /\ 0 <= scrollTop c')).
Proof.
  destruct (target s) as [el|] eqn:H.
  - pose proof (neededPaddingOf_nonneg c o el) as Hn.
    enforce_cases s c o f el H;
      (do 3 eexists; split; [reflexivity|]; split; [exact Hn|]; right;
       split; [|apply clampScroll_range];
       rewrite ?paddingBottom_set_scrollTop;
       apply paddingBottom_applied; exact Hn).
  - rewrite (enforce_None s c o f H).
    do 3 eexists. split; [reflexivity|]. split; [apply Qle_refl|].
    left. reflexivity.
Qed.

(** C8.  The numbers the core computes for the layout are never negative
    and nothing throws: for every target offset, top padding, content
    height and viewport height, [calculateOffset] of an element and the
    bottom padding [enforce] computes (returned and, when there is a
    target, applied) are at least 0, as is the scroll offset [enforce]
    leaves; [enforce], the frame callback of [scrollToMessage], the resize
    callback and [handleStreamScroll] all complete normally. *)
Theorem core_nonnegative_and_total :
  (forall c el, exists v, calculateOffset c (Some el) = Normal v /\ 0 <= v) /\
  (forall s c o f, exists s' c' r,
      enforce s c o f = Normal (s', c', r) /\
      0 <= ret_padding r /\
      (target s = None \/
       (paddingBottom c' == ret_padding r /\ 0 <= scrollTop c'))) /\
  (forall cv cb, exists cv', runFrame cv cb = Normal cv') /\
  (forall cv, exists cv', onResize cv = Normal cv') /\
  (forall cv, exists cv', handleStreamScroll cv = Normal cv').
Proof.
  split.
  { intros c el. exists (snapOffsetOf c el).
    split; [reflexivity|apply snapOffsetOf_nonneg]. }
  split; [exact enforce_completes|].
  split.
  { intros cv [].
    destruct (enforce_completes (snapLayout cv) (container cv) None true)
      as (s' & c' & r & He & _).
    unfold runFrame. rewrite He. cbn [bind]. eexists. reflexivity. }
  split.
  { intro cv. unfold onResize.
    destruct (getTarget (snapLayout cv)); [|eexists; reflexivity].
    destruct (enforce_completes (snapLayout cv) (container cv)
                (Some (rectHeight (container cv))) false)
      as (s' & c' & r & He & _).
    rewrite He. cbn [bind]. eexists. reflexivity. }
  intro cv. unfold handleStreamScroll.
  destruct (isStreaming cv); [|eexists; reflexivity].
  destruct (getTarget (snapLayout cv)); [|eexists; reflexivity].
  destruct (enforce_completes (snapLayout cv) (container cv) None false)
    as (s' & c' & r & He & _).
  rewrite He. cbn [bind]. eexists. reflexivity.
Qed.

(* ------------------------------------------------------------------------- *)
(** ** The scroll latch *)

Lemma handleScroll_up (config : Config) (l : ScrollLatch) (c : Container) :
  scrollTop c < lastScrollTop l ->
  latched (handleScroll config l c) = false.
Proof.
  intro Hup. apply Qltb_true in Hup.
  unfold handleScroll. cbn [latched]. rewrite Hup. reflexivity.
Qed.

Lemma handleScroll_baseline (config : Config) (l : ScrollLatch) (c : Container) :
  lastScrollTop (handleScroll config l c) = scrollTop c.
Proof. reflexivity. Qed.

Lemma handleScrolls_snoc (config : Config) (l : ScrollLatch)
  (events : list Container) (c : Container) :
  handleScrolls config l (events ++ [c])
  = handleScroll config (handleScrolls config l events) c.
Proof. unfold handleScrolls. apply fold_left_app. Qed.

(** Down a strictly decreasing run, the latch is off after every event. *)
Lemma decreasing_disengaged (config : Config) (events : list Container) :
  forall l, events <> [] ->
  decreasing_from (lastScrollTop l) events ->
  latched (handleScrolls config l events) = false.
Proof.
  induction events as [|c rest IH]; intros l Hne Hdec; [congruence|].
  destruct Hdec as [Hup Hrest].
  destruct rest as [|c' rest'].
  - apply handleScroll_up. exact Hup.
  - change (handleScrolls config l (c :: c' :: rest'))
      with (handleScrolls config (handleScroll config l c) (c' :: rest')).
    apply IH; [discriminate|].
    rewrite handleScroll_baseline. exact Hrest.
Qed.

Lemma decreasing_firstn (events : list Container) :
  forall base k, decreasing_from base events ->
  decreasing_from base (firstn k events).
Proof.
  induction events as [|c rest IH]; intros base k Hdec.
  - destruct k; exact I.
  - destruct k as [|k]; [exact I|].
    destruct Hdec as [Hup Hrest]. split; [exact Hup|].
    apply IH. exact Hrest.
Qed.

Lemma handleScroll_reengage (config : Config) (l : ScrollLatch) (c : Container) :
  latched l = false ->
  (latched (handleScroll config l c) = true <->
   lastScrollTop l <= scrollTop c /\
   distFromBottom c < NEAR_BOTTOM_THRESHOLD config).
Proof.
  intro Hoff. unfold handleScroll, distFromBottom. cbn [latched].
  destruct (Qltb (scrollTop c) (lastScrollTop l)) eqn:Eup.
  - apply Qltb_true in Eup. split; [discriminate|].
    intros [Hge _]. exfalso. lra.
  - apply Qltb_false in Eup.
    destruct (Qltb (scrollHeight c - scrollTop c - clientHeight c)
                (NEAR_BOTTOM_THRESHOLD config)) eqn:Enear.
    + apply Qltb_true in Enear. split; [intros _; split; assumption|reflexivity].
    + apply Qltb_false in Enear. rewrite Hoff. split; [discriminate|].
      intros [_ Hlt]. exfalso. lra.
Qed.

Lemma last_cons_default {A : Type} (rest : list A) (x d : A) :
  last (x :: rest) d = last rest x.
Proof.
  revert x d. induction rest as [|y rest IH]; intros x d; [reflexivity|].
  change (last (x :: y :: rest) d) with (last (y :: rest) d).
  rewrite (IH y d). symmetry. apply IH.
Qed.

(** The latch remembers the offset of the event it handled last. *)
Lemma handleScrolls_baseline (config : Config) (events : list Container) :
  forall l first,
  lastScrollTop (handleScrolls config l (first :: events))
  = scrollTop (last events first).
Proof.
  induction events as [|c rest IH]; intros l first; [reflexivity|].
  change (handleScrolls config l (first :: c :: rest))
    with (handleScrolls config (handleScroll config l first) (c :: rest)).
  rewrite IH, last_cons_default. reflexivity.
Qed.

(** C5.  Take scroll events whose offsets go strictly down, each below the
    one before it: whatever the latch was after the first of them, engaged
    or not, it is disengaged after the second and after every later one (and
    after the first one already if that one came below the offset the latch
    had seen before); a step up of a single unit is enough.  After the run
    an event re-engages the latch exactly when it does not go up from the
    last event and its distance from the bottom (content height - offset -
    visible height) is strictly below the re-engage threshold. *)
Theorem latch_disengaged_while_decreasing
  (config : Config) (l : ScrollLatch) (first : Container)
  (events : list Container) :
  events <> [] ->
  decreasing_from (scrollTop first) events ->
  (forall k, (0 < k)%nat ->
     latched (handleScrolls config l (first :: firstn k events)) = false) /\
  (scrollTop first < lastScrollTop l ->
     latched (handleScroll config l first) = false) /\
  (forall c, scrollTop c == scrollTop first - 1 ->
     latched (handleScroll config (handleScroll config l first) c) = false) /\
  (forall c,
     latched (handleScroll config
                (handleScrolls config l (first :: events)) c) = true <->
     scrollTop (last events first) <= scrollTop c /\
     distFromBottom c < NEAR_BOTTOM_THRESHOLD config).
Proof.
  intros Hne Hdec.
  assert (Hprefix : forall evs, evs <> [] ->
            decreasing_from (scrollTop first) evs ->
            latched (handleScrolls config l (first :: evs)) = false).
  { intros evs Hn Hd.
    change (handleScrolls config l (first :: evs))
      with (handleScrolls config (handleScroll config l first) evs).
    apply decreasing_disengaged; [exact Hn|].
    rewrite handleScroll_baseline. exact Hd. }
  split; [|split; [|split]].
  - intros k Hk. apply Hprefix.
    + destruct events; [congruence|]. destruct k; [lia|discriminate].
    + apply decreasing_firstn. exact Hdec.
  - apply handleScroll_up.
  - intros c Hc. apply handleScroll_up.
    rewrite handleScroll_baseline. lra.
  - intro c.
    rewrite <- (handleScrolls_baseline config events l first).
    apply handleScroll_reengage. apply Hprefix; assumption.
Qed.

Lemma latch_disengaged_while_decreasing_witness :
  (forall k, (0 < k)%nat ->
     latched (handleScrolls DEFAULT_CONFIG createScrollLatch
                (scenario_at 100 :: firstn k [scenario_at 99; scenario_at 40]))
     = false) /\
  (scrollTop (scenario_at 100) < lastScrollTop createScrollLatch ->
     latched (handleScroll DEFAULT_CONFIG createScrollLatch (scenario_at 100))
     = false) /\
  (forall c, scrollTop c == scrollTop (scenario_at 100) - 1 ->
     latched (handleScroll DEFAULT_CONFIG
                (handleScroll DEFAULT_CONFIG createScrollLatch
                   (scenario_at 100)) c) = false) /\
  (forall c,
     latched (handleScroll DEFAULT_CONFIG
                (handleScrolls DEFAULT_CONFIG createScrollLatch
                   (scenario_at 100 :: [scenario_at 99; scenario_at 40])) c)
     = true <->
     scrollTop (last [scenario_at 99; scenario_at 40] (scenario_at 100))
       <= scrollTop c /\
     distFromBottom c < NEAR_BOTTOM_THRESHOLD DEFAULT_CONFIG).
Proof.
  apply (latch_disengaged_while_decreasing DEFAULT_CONFIG createScrollLatch
           (scenario_at 100) [scenario_at 99; scenario_at 40]).
  - discriminate.
  - simpl. repeat split; reflexivity.
Defined.

(* ------------------------------------------------------------------------- *)
(** ** The attachment list of the prompt input *)

Lemma attachments_updateSubmitState (p : PromptInput) :
  attachments (updateSubmitState p) = attachments p.
Proof. reflexivity. Qed.

Lemma readers_updateSubmitState (p : PromptInput) :
  readers (updateSubmitState p) = readers p.
Proof. reflexivity. Qed.

Lemma splice1_length_le {A : Type} (l : list A) :
  forall i, (List.length (splice1 i l) <= List.length l)%nat.
Proof.
  induction l as [|x rest IH]; intro i.
  - destruct i; simpl; lia.
  - destruct i as [|i]; simpl; [lia|]. specialize (IH i). lia.
Qed.

Lemma splice1_length_in {A : Type} (l : list A) :
  forall i x, nth_error l i = Some x ->
  S (List.length (splice1 i l)) = List.length l.
Proof.
  induction l as [|y rest IH]; intros i x Hn.
  - destruct i; discriminate Hn.
  - destruct i as [|i]; simpl; [reflexivity|].
    simpl in Hn. rewrite (IH i x Hn). reflexivity.
Qed.

(** [handleFiles] does nothing once the list is full. *)
Lemma handleFiles_full (p : PromptInput) (files : list File) :
  (MAX_ATTACHMENTS <= Z.of_nat (List.length (attachments p)))%Z ->
  handleFiles p files = p.
Proof.
  intro Hfull. unfold handleFiles.
  destruct (Z.leb_spec (MAX_ATTACHMENTS - Z.of_nat (List.length (attachments p))) 0);
    [reflexivity|lia].
Qed.

(** One call starts at most [MAX_ATTACHMENTS - attachments.length] readers,
    and adds nothing to the list by itself. *)
Lemma handleFiles_starts_at_most_remaining (p : PromptInput) (files : list File) :
  attachments (handleFiles p files) = attachments p /\
  (Z.of_nat (List.length (readers (handleFiles p files)))
   <= Z.of_nat (List.length (readers p))
      + Z.max 0 (MAX_ATTACHMENTS - Z.of_nat (List.length (attachments p))))%Z.
Proof.
  unfold handleFiles.
  destruct (Z.leb_spec (MAX_ATTACHMENTS - Z.of_nat (List.length (attachments p))) 0)
    as [Hle|Hgt]; cbn [attachments readers].
  - split; [reflexivity|lia].
  - split; [reflexivity|].
    rewrite length_app, length_firstn. lia.
Qed.

(** As long as files are only selected while no reader is in flight, the
    list never grows past [MAX_ATTACHMENTS]. *)
Lemma input_step_within_limit (p : PromptInput) (e : InputEvent) :
  within_limit p ->
  match e with SelectFiles _ => readers p = [] | _ => True end ->
  within_limit (input_step p e).
Proof.
  unfold within_limit. intros Hlim Hq.
  destruct e as [files|i|index]; cbn [input_step].
  - unfold onFileInputChange. destruct (0 <? List.length files)%nat; [|exact Hlim].
    unfold handleFiles.
    destruct (Z.leb_spec
                (MAX_ATTACHMENTS - Z.of_nat (List.length (attachments p))) 0)
      as [Hle|Hgt]; [exact Hlim|].
    cbn [attachments readers]. rewrite Hq. cbn [app].
    rewrite length_firstn. lia.
  - unfold readerOnload. destruct (nth_error (readers p) i) as [f|] eqn:Hn;
      [|exact Hlim].
    rewrite attachments_updateSubmitState, readers_updateSubmitState.
    cbn [attachments readers].
    pose proof (splice1_length_in (readers p) i f Hn) as Hs.
    rewrite length_app. cbn [List.length]. lia.
  - unfold removeAttachment.
    rewrite attachments_updateSubmitState, readers_updateSubmitState.
    cbn [attachments readers].
    pose proof (splice1_length_le (attachments p) index). lia.
Qed.

(** C10, at the failing input.  Two selections of five files made before any
    reader has fired start ten readers; when the ten [load] events have
    been delivered the list holds ten attachments, twice
    [MAX_ATTACHMENTS]. *)
Theorem attachments_overshoot :
  List.length (attachments (input_run initialPromptInput overshoot_trace))
  = 10%nat /\
  (MAX_ATTACHMENTS
   < Z.of_nat (List.length
       (attachments (input_run initialPromptInput overshoot_trace))))%Z.
Proof. vm_compute. split; reflexivity. Qed.

(* ========================================================================= *)
(** * Further properties of the code *)

(* ------------------------------------------------------------------------- *)
(** ** The synthesized padding *)

(** No padding is synthesized where the unpadded content already leaves a
    pixel of room past the snap offset. *)
Lemma neededPaddingOf_least (c : Container) (o : option Q) (el : Element)
  (z : Z) :
  (0 <= z)%Z ->
  snapOffsetOf c el + 1
    <= (scrollHeight c - paddingBottom c) - viewportHeightOf c o + inject_Z z ->
  neededPaddingOf c o el <= inject_Z z.
Proof.
  intros Hz Hfit. unfold neededPaddingOf.
  pose proof (js_or_zero (paddingBottom c)) as Hp.
  assert (Hc : (Qceiling
    (snapOffsetOf c el
     - (scrollHeight c - js_or (paddingBottom c) 0 - viewportHeightOf c o) + 1)
    <= z)%Z).
  { rewrite <- (Qceiling_Z z). apply Qceiling_resp_le. lra. }
  assert (H0 : 0 <= inject_Z z).
  { change 0 with (inject_Z 0). rewrite <- Zle_Qle. exact Hz. }
  rewrite Zle_Qle in Hc.
  set (k := inject_Z (Qceiling _)) in *. clearbody k. minmax.
Qed.

(** X4.  While snapped, a call without [forceSnap] that finds a drift of at
    most 9, a pixel inside the break threshold, leaves the viewport exactly
    at the snap offset and stays snapped: small drift is corrected, not
    accumulated.  This is so where the content fills the viewport and the
    box, with the padding applied, is no higher than the viewport height
    [enforce] worked with. *)
Theorem enforce_holds_the_pin
  (s : SnapLayout) (c : Container) (o : option Q) (el : Element) :
  target s = Some el ->
  isSnapped s = true ->
  driftOf c o el <= 9 ->
  clientHeight c <= contentHeight c + paddingBottom c ->
  clientHeight (set_paddingBottom c (neededPaddingOf c o el))
    <= viewportHeightOf c o ->
  exists c' r,
    enforce s c o false = Normal (s, c', r) /\
    ret_isSnapped r = true /\
    scrollTop c' == snapOffsetOf c el.
Proof.
  intros H Hs Hd9 Hfill Hbox.
  assert (Hd : Qltb 10 (driftOf c o el) = false) by (apply Qltb_false; lra).
  rewrite (enforce_Some s c o false el H). cbv zeta. rewrite Hs, Hd.
  destruct (Qltb 0 (driftOf c o el)) eqn:E0.
  - do 2 eexists. split; [reflexivity|]. split; [reflexivity|].
    exact (snap_offset_lands c o el Hfill Hbox).
  - do 2 eexists. split; [reflexivity|]. split; [reflexivity|].
    apply Qltb_false in E0. unfold driftOf in E0.
    set (t := scrollTop _) in *. clearbody t.
    set (v := snapOffsetOf c el) in *. clearbody v.
    minmax.
Qed.

Lemma enforce_holds_the_pin_witness :
  exists c' r,
    enforce scenario_snap (pinned_at 595) None false
      = Normal (scenario_snap, c', r) /\
    ret_isSnapped r = true /\
    scrollTop c' == snapOffsetOf (pinned_at 595) 0%nat.
Proof.
  apply (enforce_holds_the_pin scenario_snap (pinned_at 595) None 0%nat).
  - reflexivity.
  - reflexivity.
  - vm_compute. discriminate.
  - vm_compute. discriminate.
  - vm_compute. discriminate.
Defined.

Lemma js_or_same (x : Q) : js_or x x = x.
Proof. unfold js_or. destruct (Qeq_bool x 0); reflexivity. Qed.

Lemma js_or_falsy (x d : Q) : x == 0 -> js_or x d = d.
Proof.
  intro Hx. unfold js_or. apply Qeq_bool_iff in Hx. rewrite Hx. reflexivity.
Qed.

(** X5.  The height the resize observer passes is the one [enforce] would
    measure by itself, and an override of 0 is ignored like [null]: both
    calls do exactly what [enforce()] without override does, so the resize
    callback is a plain re-enforce. *)
Theorem enforce_override_is_measured_height
  (s : SnapLayout) (c : Container) (f : bool) :
  enforce s c (Some (rectHeight c)) f = enforce s c None f /\
  (forall h, h == 0 -> enforce s c (Some h) f = enforce s c None f) /\
  (forall cv, target (snapLayout cv) <> None ->
     onResize cv
     = (r <- enforce (snapLayout cv) (container cv) None false ;;
        let '(s', c', _) := r in
        Normal {| container := c';
                  scrollBehavior := scrollBehavior cv;
                  scrollBtn := scrollBtn cv;
                  config := config cv;
                  scrollLatch := scrollLatch cv;
                  snapLayout := s';
                  isStreaming := isStreaming cv |})).
Proof.
  assert (Hself : forall s0 c0 f0,
             enforce s0 c0 (Some (rectHeight c0)) f0 = enforce s0 c0 None f0).
  { intros s0 c0 f0. unfold enforce, js_or_null.
    rewrite js_or_same. reflexivity. }
  split; [apply Hself|]. split.
  - intros h Hh. unfold enforce, js_or_null.
    rewrite (js_or_falsy h (rectHeight c) Hh). reflexivity.
  - intros cv Ht. unfold onResize, getTarget.
    destruct (target (snapLayout cv)) eqn:E; [|congruence].
    rewrite Hself. reflexivity.
Qed.

Lemma enforce_override_is_measured_height_witness :
  enforce scenario_snap scenario_container
    (Some (rectHeight scenario_container)) false
  = enforce scenario_snap scenario_container None false.
Proof.
  exact (proj1 (enforce_override_is_measured_height scenario_snap
                  scenario_container false)).
Defined.

(** X6.  Once the snap is broken, a call without [forceSnap] does not move
    a viewport that shows real content: if the scroll offset lies within the
    range of the unpadded content it is left where it is, and the snap
    stays broken. *)
Theorem enforce_unsnapped_keeps_offset
  (s : SnapLayout) (c : Container) (o : option Q) (el : Element) :
  target s = Some el ->
  isSnapped s = false ->
  0 <= scrollTop c ->
  scrollTop c <= (scrollHeight c - paddingBottom c) - clientHeight c ->
  exists c' r,
    enforce s c o false = Normal (s, c', r) /\
    ret_isSnapped r = false /\
    scrollTop c' == scrollTop c.
Proof.
  intros H Hs H0 Hin.
  rewrite (enforce_Some s c o false el H). cbv zeta. rewrite Hs.
  do 2 eexists. split; [reflexivity|]. split; [reflexivity|].
  apply scrollTop_kept_under_padding; [|assumption|assumption].
  apply neededPaddingOf_nonneg.
Qed.

Lemma enforce_unsnapped_keeps_offset_witness :
  exists c' r,
    enforce {| target := Some 0%nat; isSnapped := false |} (scenario_at 40)
      None false
      = Normal ({| target := Some 0%nat; isSnapped := false |}, c', r) /\
    ret_isSnapped r = false /\
    scrollTop c' == scrollTop (scenario_at 40).
Proof.
  apply (enforce_unsnapped_keeps_offset
           {| target := Some 0%nat; isSnapped := false |} (scenario_at 40)
           None 0%nat).
  - reflexivity.
  - reflexivity.
  - vm_compute. discriminate.
  - vm_compute. discriminate.
Defined.

(* ------------------------------------------------------------------------- *)
(** ** Pinning and the latch *)

(** X7.  Where the content fills the viewport and the box, with the padding
    applied, is no higher than the measured height, pinning works:
    [scrollToMessage(X)] followed by its frame callback leaves the viewport
    exactly at [calculateOffset(X)], snapped and streaming, wherever it was
    scrolled before. *)
Theorem scrollToMessage_pins_filled_viewport (cv : Conversation) (X : Element) :
  clientHeight (container cv)
    <= contentHeight (container cv) + paddingBottom (container cv) ->
  clientHeight (set_paddingBottom (container cv)
                  (neededPaddingOf (container cv) None X))
    <= rectHeight (container cv) ->
  exists cv1 cv2 offset,
    scrollToMessage cv (Some X) = (cv1, [ForceSnapFrame]) /\
    runFrame cv1 ForceSnapFrame = Normal cv2 /\
    calculateOffset (container cv2) (Some X) = Normal offset /\
    scrollTop (container cv2) == offset /\
    isSnapped (snapLayout cv2) = true /\
    isStreaming cv2 = true.
Proof.
  intros Hfill Hbox.
  pose proof (snap_offset_lands (container cv) None X Hfill Hbox) as Hland.
  exists (fst (scrollToMessage cv (Some X))).
  eexists. exists (snapOffsetOf (container cv) X).
  split; [reflexivity|].
  cbn [fst scrollToMessage runFrame snapLayout container].
  rewrite (enforce_Some (setTarget (snapLayout cv) (Some X)) (container cv)
             None true X eq_refl).
  cbv zeta. cbn [bind].
  split; [reflexivity|].
  cbn [container snapLayout isSnapped isStreaming].
  split; [reflexivity|].
  split; [exact Hland|].
  split; reflexivity.
Qed.

Lemma scrollToMessage_pins_filled_viewport_witness :
  exists cv1 cv2 offset,
    scrollToMessage streaming_conversation (Some 0%nat)
      = (cv1, [ForceSnapFrame]) /\
    runFrame cv1 ForceSnapFrame = Normal cv2 /\
    calculateOffset (container cv2) (Some 0%nat) = Normal offset /\
    scrollTop (container cv2) == offset /\
    isSnapped (snapLayout cv2) = true /\
    isStreaming cv2 = true.
Proof.
  apply (scrollToMessage_pins_filled_viewport streaming_conversation 0%nat).
  - vm_compute. discriminate.
  - vm_compute. discriminate.
Defined.

(** X24.  Where the content, even with the padding [enforce] synthesizes,
    stays a pixel or more short of the height of the box, the viewport has
    nothing to scroll: a forced snap leaves it at offset 0 and reports it
    snapped all the same, so a target below the top is not where the snap
    state says it is. *)
Theorem forced_snap_stuck_on_short_content
  (s : SnapLayout) (c : Container) (o : option Q) (el : Element) :
  target s = Some el ->
  0 < snapOffsetOf c el ->
  contentHeight c + neededPaddingOf c o el + 1
    <= clientHeight (set_paddingBottom c (neededPaddingOf c o el)) ->
  exists s' c' r,
    enforce s c o true = Normal (s', c', r) /\
    maxScrollTop c' == 0 /\
    scrollTop c' == 0 /\
    ~ scrollTop c' == snapOffsetOf c el /\
    isSnapped s' = true /\ ret_isSnapped r = true.
Proof.
  intros H Hpos Hshort.
  rewrite (enforce_Some s c o true el H). cbv zeta.
  do 3 eexists. split; [reflexivity|].
  pose proof (neededPaddingOf_nonneg c o el) as Hn.
  assert (Hmax : maxScrollTop (set_paddingBottom c (neededPaddingOf c o el))
                 == 0).
  { unfold maxScrollTop. rewrite scrollHeight_set_paddingBottom.
    set (b := clientHeight (set_paddingBottom c (neededPaddingOf c o el))) in *.
    clearbody b.
    set (n := neededPaddingOf c o el) in *. clearbody n.
    minmax. }
  pose proof (clampScroll_range
                (set_paddingBottom c (neededPaddingOf c o el))
                (snapOffsetOf c el)) as [Hlo Hhi].
  rewrite maxScrollTop_set_scrollTop, scrollTop_is_clamped.
  set (t := clampScroll _ _) in *. clearbody t.
  set (m := maxScrollTop _) in *. clearbody m.
  split; [exact Hmax|]. split; [lra|].
  split; [|split; reflexivity].
  intro Heq. lra.
Qed.

Lemma forced_snap_stuck_on_short_content_witness :
  exists s' c' r,
    enforce scenario_snap short_container None true = Normal (s', c', r) /\
    maxScrollTop c' == 0 /\
    scrollTop c' == 0 /\
    ~ scrollTop c' == snapOffsetOf short_container 0%nat /\
    isSnapped s' = true /\ ret_isSnapped r = true.
Proof.
  apply (forced_snap_stuck_on_short_content scenario_snap short_container
           None 0%nat).
  - reflexivity.
  - vm_compute. reflexivity.
  - vm_compute. discriminate.
Defined.

(** X8.  An engaged latch is broken by upward events and by nothing else: a
    scroll event disengages it exactly when its offset is below the last
    one seen. *)
Theorem latch_broken_only_by_upward
  (config : Config) (l : ScrollLatch) (c : Container) :
  latched l = true ->
  (latched (handleScroll config l c) = false <->
   scrollTop c < lastScrollTop l).
Proof.
  intro Hon. unfold handleScroll. cbn [latched].
  destruct (Qltb (scrollTop c) (lastScrollTop l)) eqn:Eup.
  - apply Qltb_true in Eup. split; [intros _; exact Eup|reflexivity].
  - apply Qltb_false in Eup. rewrite Hon.
    destruct (Qltb _ (NEAR_BOTTOM_THRESHOLD config));
      (split; [discriminate|intro Hlt; exfalso; lra]).
Qed.

Lemma latch_broken_only_by_upward_witness :
  latched (handleScroll DEFAULT_CONFIG createScrollLatch (scenario_at 40))
    = false <->
  scrollTop (scenario_at 40) < lastScrollTop createScrollLatch.
Proof.
  apply (latch_broken_only_by_upward DEFAULT_CONFIG createScrollLatch
           (scenario_at 40)).
  reflexivity.
Defined.

Lemma nondecreasing_engaged (config : Config) (events : list Container) :
  forall l, latched l = true ->
  nondecreasing_from (lastScrollTop l) events ->
  latched (handleScrolls config l events) = true.
Proof.
  induction events as [|c rest IH]; intros l Hon Hmono; [exact Hon|].
  destruct Hmono as [Hge Hrest].
  change (handleScrolls config l (c :: rest))
    with (handleScrolls config (handleScroll config l c) rest).
  apply IH; [|rewrite handleScroll_baseline; exact Hrest].
  destruct (latched (handleScroll config l c)) eqn:E; [reflexivity|].
  exfalso.
  assert (Hup : scrollTop c < lastScrollTop l).
  { unfold handleScroll in E. cbn [latched] in E.
    destruct (Qltb (scrollTop c) (lastScrollTop l)) eqn:Eup.
    - apply Qltb_true in Eup. exact Eup.
    - rewrite Hon in E.
      destruct (Qltb _ (NEAR_BOTTOM_THRESHOLD config)); discriminate E. }
  lra.
Qed.

Lemma nondecreasing_firstn (events : list Container) :
  forall base k, nondecreasing_from base events ->
  nondecreasing_from base (firstn k events).
Proof.
  induction events as [|c rest IH]; intros base k Hmono.
  - destruct k; exact I.
  - destruct k as [|k]; [exact I|].
    destruct Hmono as [Hge Hrest]. split; [exact Hge|].
    apply IH. exact Hrest.
Qed.

(** X9.  [engage()] takes the current offset as the baseline: after it, the
    latch stays engaged through every run of scroll events that never goes
    below the offset before it, starting from the offset at which it was
    engaged, wherever the content ends. *)
Theorem engage_survives_downward_scrolling
  (config : Config) (l : ScrollLatch) (c : Container)
  (events : list Container) (k : nat) :
  nondecreasing_from (scrollTop c) events ->
  latched (handleScrolls config (engage l c) (firstn k events)) = true.
Proof.
  intro Hmono.
  apply nondecreasing_engaged; [reflexivity|].
  apply nondecreasing_firstn. exact Hmono.
Qed.

Lemma engage_survives_downward_scrolling_witness :
  latched (handleScrolls DEFAULT_CONFIG
             (engage (mkLatch false 900) (scenario_at 40))
             (firstn 2 [scenario_at 40; scenario_at 99])) = true.
Proof.
  apply (engage_survives_downward_scrolling DEFAULT_CONFIG (mkLatch false 900)
           (scenario_at 40) [scenario_at 40; scenario_at 99] 2).
  simpl. repeat split; vm_compute; discriminate.
Defined.

(* ------------------------------------------------------------------------- *)
(** ** The conversation controller *)

Lemma scrollToBottom_at_max (cv : Conversation) (smooth : bool) :
  0 <= clientHeight (container cv) ->
  scrollTop (container (scrollToBottom cv smooth))
  == maxScrollTop (container (scrollToBottom cv smooth)).
Proof.
  intro Hc.
  unfold scrollToBottom, snap_clear, scrollTo. cbn [container].
  rewrite scrollTop_set_scrollTop.
  set (c0 := set_paddingBottom (container cv) 0).
  change (maxScrollTop (set_scrollTop c0 (scrollHeight c0)))
    with (Qmax 0 (scrollHeight c0 - clientHeight c0)).
  pose proof (clientHeight_nonneg c0) as Hcl.
  apply clampTo_top. lra.
Qed.

Lemma scrollTo_bottom_at_max (c : Container) (smooth : bool) :
  0 <= clientHeight c ->
  scrollTop (scrollTo c (scrollHeight c) smooth)
  == maxScrollTop (scrollTo c (scrollHeight c) smooth).
Proof.
  intro Hc. unfold scrollTo. rewrite scrollTop_set_scrollTop.
  change (maxScrollTop (set_scrollTop c (scrollHeight c)))
    with (Qmax 0 (scrollHeight c - clientHeight c)).
  apply clampTo_top. lra.
Qed.

(** X10.  Outside a pinned streaming episode (not streaming, or no target)
    [handleStreamScroll] only follows the latch: with the latch disengaged
    it changes nothing at all; with the latch engaged it drops any target
    and padding and jumps to the maximum scroll offset.  It never touches
    the streaming flag. *)
Theorem handleStreamScroll_follows_latch (cv : Conversation) :
  isStreaming cv = false \/ getTarget (snapLayout cv) = None ->
  0 <= clientHeight (container cv) ->
  exists cv',
    handleStreamScroll cv = Normal cv' /\
    isStreaming cv' = isStreaming cv /\
    (isLatched (scrollLatch cv) = false -> cv' = cv) /\
    (isLatched (scrollLatch cv) = true ->
       getTarget (snapLayout cv') = None /\
       paddingBottom (container cv') = 0 /\
       scrollTop (container cv') == maxScrollTop (container cv')).
Proof.
  intros Hout Hc.
  assert (Hpath : handleStreamScroll cv
                  = Normal (if isLatched (scrollLatch cv)
                            then scrollToBottom cv false else cv)).
  { unfold handleStreamScroll.
    destruct Hout as [Hs|Ht]; [rewrite Hs; reflexivity|].
    rewrite Ht. destruct (isStreaming cv); reflexivity. }
  rewrite Hpath. eexists. split; [reflexivity|].
  destruct (isLatched (scrollLatch cv)).
  - split; [reflexivity|]. split; [discriminate|]. intros _.
    split; [reflexivity|]. split; [reflexivity|].
    apply scrollToBottom_at_max. exact Hc.
  - split; [reflexivity|]. split; [reflexivity|discriminate].
Qed.

Lemma handleStreamScroll_follows_latch_witness :
  exists cv',
    handleStreamScroll (endStreaming scenario_conversation) = Normal cv' /\
    isStreaming cv' = isStreaming (endStreaming scenario_conversation) /\
    (isLatched (scrollLatch (endStreaming scenario_conversation)) = false ->
       cv' = endStreaming scenario_conversation) /\
    (isLatched (scrollLatch (endStreaming scenario_conversation)) = true ->
       getTarget (snapLayout cv') = None /\
       paddingBottom (container cv') = 0 /\
       scrollTop (container cv') == maxScrollTop (container cv')).
Proof.
  apply (handleStreamScroll_follows_latch (endStreaming scenario_conversation)).
  - left. reflexivity.
  - vm_compute. discriminate.
Defined.

(** X11.  Overflow mode.  In a streaming episode whose snap is broken, once
    the content alone lets the viewport scroll two pixels or more past the
    target (no padding is needed, with a pixel to spare) and the latch is
    engaged, [handleStreamScroll] takes the viewport to its maximum scroll
    offset; the target is kept and the snap stays broken. *)
Theorem handleStreamScroll_overflow_follows_bottom
  (cv : Conversation) (el : Element) :
  isStreaming cv = true ->
  target (snapLayout cv) = Some el ->
  isSnapped (snapLayout cv) = false ->
  isLatched (scrollLatch cv) = true ->
  snapOffsetOf (container cv) el + 2
    <= (scrollHeight (container cv) - paddingBottom (container cv))
       - rectHeight (container cv) ->
  exists cv',
    handleStreamScroll cv = Normal cv' /\
    snapLayout cv' = snapLayout cv /\
    paddingBottom (container cv') == 0 /\
    scrollTop (container cv') == maxScrollTop (container cv').
Proof.
  intros Hst Ht Hs Hl Hfit.
  pose proof (clientHeight_nonneg (container cv)) as Hc.
  assert (Hzero : neededPaddingOf (container cv) None el == 0).
  { pose proof (neededPaddingOf_least (container cv) None el 0 (Z.le_refl 0))
      as Hle.
    pose proof (neededPaddingOf_nonneg (container cv) None el) as Hge.
    change (inject_Z 0) with 0 in Hle.
    change (viewportHeightOf (container cv) None)
      with (rectHeight (container cv)) in Hle.
    assert (neededPaddingOf (container cv) None el <= 0) by (apply Hle; lra).
    lra. }
  unfold handleStreamScroll, getTarget. rewrite Hst, Ht.
  rewrite (enforce_Some (snapLayout cv) (container cv) None false el Ht).
  cbv zeta. rewrite Hs. cbn [bind ret_isSnapped ret_padding negb].
  apply Qeq_bool_iff in Hzero. rewrite Hzero, Hl. cbn [andb].
  eexists. split; [reflexivity|]. cbn [snapLayout container].
  split; [reflexivity|]. split.
  - apply Qeq_bool_iff in Hzero. unfold scrollTo.
    rewrite paddingBottom_set_scrollTop, paddingBottom_set_paddingBottom.
    set (n := neededPaddingOf (container cv) None el) in *. clearbody n.
    minmax.
  - apply scrollTo_bottom_at_max. apply clientHeight_nonneg.
Qed.

Lemma handleStreamScroll_overflow_follows_bottom_witness :
  exists cv',
    handleStreamScroll
      {| container := scenario_at 40; scrollBehavior := BehaviorAuto;
         scrollBtn := None; config := DEFAULT_CONFIG;
         scrollLatch := createScrollLatch;
         snapLayout := {| target := Some 0%nat; isSnapped := false |};
         isStreaming := true |} = Normal cv' /\
    snapLayout cv' = {| target := Some 0%nat; isSnapped := false |} /\
    paddingBottom (container cv') == 0 /\
    scrollTop (container cv') == maxScrollTop (container cv').
Proof.
  apply (handleStreamScroll_overflow_follows_bottom
           {| container := scenario_at 40; scrollBehavior := BehaviorAuto;
              scrollBtn := None; config := DEFAULT_CONFIG;
              scrollLatch := createScrollLatch;
              snapLayout := {| target := Some 0%nat; isSnapped := false |};
              isStreaming := true |} 0%nat).
  - reflexivity.
  - reflexivity.
  - reflexivity.
  - reflexivity.
  - vm_compute. discriminate.
Defined.

(** X12.  In a streaming episode whose snap is broken, a disengaged latch
    keeps [handleStreamScroll] from scrolling: a viewport that shows real
    content stays at its offset, and the snap state is untouched. *)
Theorem handleStreamScroll_released_unlatched_stays
  (cv : Conversation) (el : Element) :
  isStreaming cv = true ->
  target (snapLayout cv) = Some el ->
  isSnapped (snapLayout cv) = false ->
  isLatched (scrollLatch cv) = false ->
  0 <= scrollTop (container cv) ->
  scrollTop (container cv)
    <= (scrollHeight (container cv) - paddingBottom (container cv))
       - clientHeight (container cv) ->
  exists cv',
    handleStreamScroll cv = Normal cv' /\
    snapLayout cv' = snapLayout cv /\
    scrollTop (container cv') == scrollTop (container cv).
Proof.
  intros Hst Ht Hs Hl H0 Hin.
  unfold handleStreamScroll, getTarget. rewrite Hst, Ht.
  rewrite (enforce_Some (snapLayout cv) (container cv) None false el Ht).
  cbv zeta. rewrite Hs. cbn [bind ret_isSnapped ret_padding negb].
  rewrite Hl, andb_false_r.
  eexists. split; [reflexivity|]. cbn [snapLayout container].
  split; [reflexivity|].
  apply scrollTop_kept_under_padding; [|assumption|assumption].
  apply neededPaddingOf_nonneg.
Qed.

Lemma handleStreamScroll_released_unlatched_stays_witness :
  exists cv',
    handleStreamScroll
      {| container := scenario_at 40; scrollBehavior := BehaviorAuto;
         scrollBtn := None; config := DEFAULT_CONFIG;
         scrollLatch := mkLatch false 90;
         snapLayout := {| target := Some 0%nat; isSnapped := false |};
         isStreaming := true |} = Normal cv' /\
    snapLayout cv' = {| target := Some 0%nat; isSnapped := false |} /\
    scrollTop (container cv') == scrollTop (scenario_at 40).
Proof.
  apply (handleStreamScroll_released_unlatched_stays
           {| container := scenario_at 40; scrollBehavior := BehaviorAuto;
              scrollBtn := None; config := DEFAULT_CONFIG;
              scrollLatch := mkLatch false 90;
              snapLayout := {| target := Some 0%nat; isSnapped := false |};
              isStreaming := true |} 0%nat).
  - reflexivity.
  - reflexivity.
  - reflexivity.
  - reflexivity.
  - vm_compute. discriminate.
  - vm_compute. discriminate.
Defined.

(** X13.  After a jump to the bottom the "scroll to bottom" button, if there
    is one, is hidden by [updateScrollButton], whatever the content, as
    long as the follow threshold is positive. *)
Theorem scroll_button_hidden_at_bottom (cv : Conversation) (shown0 : bool) :
  scrollBtn cv = Some shown0 ->
  0 < SCROLL_FOLLOW_THRESHOLD (config cv) ->
  0 <= clientHeight (container cv) ->
  scrollBtn (updateScrollButton (scrollToBottom cv false)) = Some false.
Proof.
  intros Hbtn Hthr Hc.
  pose proof (scrollToBottom_at_max cv false Hc) as Hmax.
  unfold updateScrollButton.
  change (scrollBtn (scrollToBottom cv false)) with (scrollBtn cv).
  rewrite Hbtn. cbn [scrollBtn]. f_equal.
  apply andb_false_iff. right. apply negb_false_iff.
  unfold isNearBottom. apply Qltb_true.
  change (config (scrollToBottom cv false)) with (config cv).
  unfold maxScrollTop in Hmax.
  set (c' := container (scrollToBottom cv false)) in *.
  set (t := scrollTop c') in *. clearbody t.
  set (h := scrollHeight c') in *. clearbody h.
  set (a := clientHeight c') in *. clearbody a.
  minmax.
Qed.

Lemma scroll_button_hidden_at_bottom_witness :
  scrollBtn (updateScrollButton (scrollToBottom
    {| container := scenario_at 40; scrollBehavior := FromStylesheet;
       scrollBtn := Some true; config := DEFAULT_CONFIG;
       scrollLatch := createScrollLatch; snapLayout := createSnapLayout;
       isStreaming := false |} false)) = Some false.
Proof.
  apply (scroll_button_hidden_at_bottom
    {| container := scenario_at 40; scrollBehavior := FromStylesheet;
       scrollBtn := Some true; config := DEFAULT_CONFIG;
       scrollLatch := createScrollLatch; snapLayout := createSnapLayout;
       isStreaming := false |} true).
  - reflexivity.
  - vm_compute. reflexivity.
  - vm_compute. discriminate.
Defined.

(* ------------------------------------------------------------------------- *)
(** ** The prompt input *)

Lemma trim_start_blank (s : string) :
  trim_start s = EmptyString <-> trimmed_nonempty s = false.
Proof.
  induction s as [|a rest IH]; [split; reflexivity|].
  cbn [trim_start trimmed_nonempty].
  destruct (is_whitespace a); cbn [negb orb]; [exact IH|].
  split; discriminate.
Qed.

Lemma trim_start_nonblank (s : string) :
  trimmed_nonempty (trim_start s) = trimmed_nonempty s.
Proof.
  induction s as [|a rest IH]; [reflexivity|].
  cbn [trim_start]. destruct (is_whitespace a) eqn:E.
  - cbn [trimmed_nonempty]. rewrite E. exact IH.
  - reflexivity.
Qed.

Lemma trim_end_blank (s : string) :
  trim_end s = EmptyString <-> trimmed_nonempty s = false.
Proof.
  induction s as [|a rest IH]; [split; reflexivity|].
  cbn [trim_end trimmed_nonempty].
  destruct (trim_end rest) eqn:E.
  - destruct IH as [IH1 _]. rewrite (IH1 eq_refl).
    destruct (is_whitespace a); cbn [negb orb]; split;
      try reflexivity; discriminate.
  - split; [discriminate|]. intro Hb. apply orb_false_iff in Hb.
    destruct Hb as [_ Hrest]. destruct IH as [_ IH2].
    discriminate (IH2 Hrest).
Qed.

(** [!value] for the trimmed value is the test [updateSubmitState] makes. *)
Lemma trim_blank (s : string) :
  (trim s =? EmptyString)%string = negb (trimmed_nonempty s).
Proof.
  unfold trim.
  destruct (trimmed_nonempty s) eqn:E; cbn [negb].
  - apply String.eqb_neq. intro Hb. apply trim_end_blank in Hb.
    rewrite trim_start_nonblank in Hb. congruence.
  - apply String.eqb_eq. apply trim_end_blank.
    rewrite trim_start_nonblank. exact E.
Qed.

Lemma length_eqb_0 {A : Type} (l : list A) :
  (List.length l =? 0)%nat = negb (0 <? List.length l)%nat.
Proof. destruct l; reflexivity. Qed.

Lemma submit_guard (p : PromptInput) :
  (trim (textarea_value p) =? EmptyString)%string
  && (List.length (attachments p) =? 0)%nat
  = negb (hasContent p).
Proof.
  rewrite trim_blank, length_eqb_0. unfold hasContent.
  rewrite negb_orb. reflexivity.
Qed.

Lemma updateSubmitState_in_sync (p : PromptInput) :
  submit_in_sync (updateSubmitState p).
Proof. reflexivity. Qed.

Lemma submit_in_sync_frame (p q : PromptInput) :
  textarea_value q = textarea_value p ->
  attachments q = attachments p ->
  isBusy q = isBusy p ->
  submit_disabled q = submit_disabled p ->
  submit_in_sync p -> submit_in_sync q.
Proof.
  unfold submit_in_sync, hasContent. intros Hv Ha Hb Hd Hp.
  rewrite Hv, Ha, Hb, Hd. exact Hp.
Qed.

Lemma submit_in_sync_step (p : PromptInput) (op : InputOp) :
  submit_in_sync p -> submit_in_sync (fst (op_step p op)).
Proof.
  intro Hp.
  assert (Hsub : submit_in_sync (fst (submit p))).
  { unfold submit. destruct (isBusy p); [exact Hp|].
    destruct (_ && _); [exact Hp|apply updateSubmitState_in_sync]. }
  destruct op as [e|v|key shiftKey| | | |v| |busy]; cbn [op_step fst];
    try exact Hsub; try apply updateSubmitState_in_sync.
  - destruct e as [files|i|index]; cbn [input_step].
    + unfold onFileInputChange. destruct (0 <? List.length files)%nat;
        [|exact Hp].
      unfold handleFiles. destruct (_ <=? 0)%Z; [exact Hp|].
      apply (submit_in_sync_frame p); try reflexivity. exact Hp.
    + unfold readerOnload. destruct (nth_error (readers p) i); [|exact Hp].
      apply updateSubmitState_in_sync.
    + apply updateSubmitState_in_sync.
  - unfold onKeydown. destruct (_ && _); [|exact Hp].
    destruct (negb (isBusy p)); [exact Hsub|exact Hp].
  - unfold setBusy. destruct busy; [|apply updateSubmitState_in_sync].
    unfold submit_in_sync. cbn [submit_disabled isBusy].
    rewrite orb_true_r. reflexivity.
Qed.

(** X14.  Whatever happens to the component (typing, key presses, file
    selections, reader loads, removals, and every call on its controller),
    the submit button is disabled exactly when there is nothing to send
    (blank text and no attachment) or the input is busy. *)
Theorem submit_button_always_in_sync (ops : list InputOp) :
  forall p, submit_in_sync p -> submit_in_sync (fst (op_run p ops)).
Proof.
  induction ops as [|op rest IH]; intros p Hp; [exact Hp|].
  cbn [op_run].
  pose proof (submit_in_sync_step p op Hp) as Hstep.
  destruct (op_step p op) as [p1 out]. cbn [fst] in Hstep.
  specialize (IH p1 Hstep).
  destruct (op_run p1 rest) as [p2 outs]. exact IH.
Qed.

Lemma submit_button_always_in_sync_witness :
  submit_in_sync
    (fst (op_run initialPromptInput
            [OpInput blank_text; OpInput "hi"; OpSetBusy true; OpSubmit;
             OpSetBusy false; OpKeydown "Enter" false])).
Proof.
  apply (submit_button_always_in_sync
           [OpInput blank_text; OpInput "hi"; OpSetBusy true; OpSubmit;
            OpSetBusy false; OpKeydown "Enter" false] initialPromptInput).
  reflexivity.
Defined.

(** X15.  [submit] does nothing while the input is busy, and nothing when
    the text is blank (empty or whitespace only) and no attachment is in
    the list: the state is unchanged and [onSubmit] is not called. *)
Theorem submit_ignored_when_busy_or_empty (p : PromptInput) :
  isBusy p = true \/ hasContent p = false ->
  submit p = (p, None).
Proof.
  intro Hcase. unfold submit.
  destruct (isBusy p); [reflexivity|].
  destruct Hcase as [Hb|Hc]; [discriminate Hb|].
  cbv zeta. rewrite submit_guard, Hc. reflexivity.
Qed.

Lemma submit_ignored_when_busy_or_empty_witness :
  submit (onInput initialPromptInput blank_text)
  = (onInput initialPromptInput blank_text, None).
Proof.
  apply (submit_ignored_when_busy_or_empty
           (onInput initialPromptInput blank_text)).
  right. reflexivity.
Defined.

Lemma submit_goes_through (p : PromptInput) :
  isBusy p = false ->
  hasContent p = true ->
  submit p
  = (updateSubmitState
       {| textarea_value := EmptyString;
          attachments := [];
          isBusy := isBusy p;
          submit_disabled := submit_disabled p;
          readers := readers p |},
     Some (trim (textarea_value p), attachments p)).
Proof.
  intros Hb Hc. unfold submit. rewrite Hb. cbv zeta.
  rewrite submit_guard, Hc. reflexivity.
Qed.

(** X16.  A [submit] that goes through hands [onSubmit] the trimmed text
    and the attachment list as it was, then empties both and disables the
    button; readers still in flight are not cancelled. *)
Theorem submit_sends_and_resets (p : PromptInput) :
  isBusy p = false ->
  hasContent p = true ->
  snd (submit p) = Some (trim (textarea_value p), attachments p) /\
  textarea_value (fst (submit p)) = EmptyString /\
  attachments (fst (submit p)) = [] /\
  submit_disabled (fst (submit p)) = true /\
  readers (fst (submit p)) = readers p.
Proof.
  intros Hb Hc. rewrite (submit_goes_through p Hb Hc). cbn [fst snd].
  rewrite Hb. repeat split.
Qed.

Lemma submit_sends_and_resets_witness :
  snd (submit (onInput initialPromptInput padded_text))
    = Some ("hi"%string, []) /\
  textarea_value (fst (submit (onInput initialPromptInput padded_text)))
    = EmptyString /\
  attachments (fst (submit (onInput initialPromptInput padded_text))) = [] /\
  submit_disabled (fst (submit (onInput initialPromptInput padded_text)))
    = true /\
  readers (fst (submit (onInput initialPromptInput padded_text)))
    = readers (onInput initialPromptInput padded_text).
Proof.
  apply (submit_sends_and_resets (onInput initialPromptInput padded_text));
    reflexivity.
Defined.

Lemma submit_payload (p : PromptInput) (sub : Submission) :
  snd (submit p) = Some sub ->
  isBusy p = false /\ hasContent p = true /\
  sub = (trim (textarea_value p), attachments p).
Proof.
  unfold submit. destruct (isBusy p); [discriminate|].
  cbv zeta. rewrite submit_guard.
  destruct (hasContent p); cbn [negb snd]; [|discriminate].
  intro Hs. injection Hs as Hs. subst sub. repeat split.
Qed.

Lemma op_step_payload (p : PromptInput) (op : InputOp) (sub : Submission) :
  snd (op_step p op) = Some sub ->
  isBusy p = false /\ (fst sub <> EmptyString \/ snd sub <> []).
Proof.
  assert (Hsub : snd (submit p) = Some sub ->
                 isBusy p = false /\
                 (fst sub <> EmptyString \/ snd sub <> [])).
  { intro Hs. destruct (submit_payload p sub Hs) as (Hb & Hc & Heq).
    split; [exact Hb|]. subst sub. cbn [fst snd].
    unfold hasContent in Hc. apply orb_true_iff in Hc.
    destruct Hc as [Ht|Ha].
    - left. intro Hblank. apply String.eqb_eq in Hblank.
      rewrite trim_blank, Ht in Hblank. discriminate Hblank.
    - right. destruct (attachments p); [discriminate Ha|discriminate]. }
  destruct op as [e|v|key shiftKey| | | |v| |busy]; cbn [op_step snd];
    try discriminate; try exact Hsub.
  unfold onKeydown. destruct (_ && _); [|discriminate].
  destruct (negb (isBusy p)); [exact Hsub|discriminate].
Qed.

(** X17.  The component never submits an empty message: in every run of
    operations, each call of [onSubmit] carries a non-empty trimmed text or
    at least one attachment. *)
Theorem never_submits_empty (ops : list InputOp) :
  forall p,
  Forall (fun sub : Submission => fst sub <> EmptyString \/ snd sub <> [])
         (snd (op_run p ops)).
Proof.
  induction ops as [|op rest IH]; intro p; [constructor|].
  cbn [op_run].
  pose proof (op_step_payload p op) as Hstep.
  destruct (op_step p op) as [p1 out]. cbn [snd] in Hstep.
  specialize (IH p1). destruct (op_run p1 rest) as [p2 outs].
  cbn [snd] in *. destruct out as [sub|]; [|exact IH].
  constructor; [|exact IH]. exact (proj2 (Hstep sub eq_refl)).
Qed.

Lemma isBusy_updateSubmitState (p : PromptInput) :
  isBusy (updateSubmitState p) = isBusy p.
Proof. reflexivity. Qed.

Lemma op_step_keeps_busy (p : PromptInput) (op : InputOp) :
  isBusy p = true ->
  op <> OpSetBusy false ->
  isBusy (fst (op_step p op)) = true /\ snd (op_step p op) = None.
Proof.
  intros Hb Hop.
  assert (Hsub : submit p = (p, None)) by (unfold submit; rewrite Hb; reflexivity).
  destruct op as [e|v|key shiftKey| | | |v| |busy]; cbn [op_step fst snd];
    rewrite ?Hsub; cbn [fst snd];
    try (split; [exact Hb|reflexivity]).
  - split; [|reflexivity].
    destruct e as [files|i|index]; cbn [input_step].
    + unfold onFileInputChange. destruct (0 <? List.length files)%nat;
        [|exact Hb].
      unfold handleFiles. destruct (_ <=? 0)%Z; exact Hb.
    + unfold readerOnload. destruct (nth_error (readers p) i); exact Hb.
    + exact Hb.
  - unfold onKeydown. destruct (_ && _); [|split; [exact Hb|reflexivity]].
    rewrite Hb. cbn [negb fst snd]. split; [exact Hb|reflexivity].
  - destruct busy; [split; reflexivity|congruence].
Qed.

(** X18.  While the input is busy nothing is submitted: from a busy state,
    no run of operations that does not call [setBusy(false)] reaches
    [onSubmit], whatever is typed, clicked or attached meanwhile. *)
Theorem busy_blocks_submission (ops : list InputOp) :
  forall p,
  isBusy p = true ->
  Forall (fun op => op <> OpSetBusy false) ops ->
  snd (op_run p ops) = [] /\ isBusy (fst (op_run p ops)) = true.
Proof.
  induction ops as [|op rest IH]; intros p Hb Hops.
  - split; [reflexivity|exact Hb].
  - inversion Hops as [|op' rest' Hop Hrest]; subst.
    cbn [op_run].
    destruct (op_step_keeps_busy p op Hb Hop) as [Hb1 Hnone].
    destruct (op_step p op) as [p1 out]. cbn [fst snd] in Hb1, Hnone.
    subst out. specialize (IH p1 Hb1 Hrest).
    destruct (op_run p1 rest) as [p2 outs]. exact IH.
Qed.

Lemma busy_blocks_submission_witness :
  snd (op_run (setBusy initialPromptInput true)
         [OpInput "hi"; OpKeydown "Enter" false; OpClickSubmit; OpSubmit])
    = [] /\
  isBusy (fst (op_run (setBusy initialPromptInput true)
                 [OpInput "hi"; OpKeydown "Enter" false; OpClickSubmit;
                  OpSubmit])) = true.
Proof.
  apply (busy_blocks_submission
           [OpInput "hi"; OpKeydown "Enter" false; OpClickSubmit; OpSubmit]
           (setBusy initialPromptInput true)).
  - reflexivity.
  - repeat constructor; discriminate.
Defined.

(** X19.  As long as files are only selected while no reader is in flight,
    attachments plus readers in flight never exceed [MAX_ATTACHMENTS], so
    the list never holds more than five entries, whatever is loaded or
    removed in between. *)
Theorem attachment_cap_without_overlap (events : list InputEvent) :
  forall p,
  within_limit p ->
  quiescent_selections p events ->
  within_limit (input_run p events) /\
  (Z.of_nat (List.length (attachments (input_run p events)))
   <= MAX_ATTACHMENTS)%Z.
Proof.
  induction events as [|e rest IH]; intros p Hlim Hq.
  - change (input_run p []) with p.
    split; [exact Hlim|]. unfold within_limit in Hlim. lia.
  - destruct Hq as [Hnow Hrest].
    change (input_run p (e :: rest)) with (input_run (input_step p e) rest).
    apply IH; [|exact Hrest].
    apply input_step_within_limit; assumption.
Qed.

Lemma attachment_cap_without_overlap_witness :
  within_limit
    (input_run initialPromptInput
       [SelectFiles five_files; ReaderLoaded 0; ReaderLoaded 0;
        ReaderLoaded 0; ReaderLoaded 0; ReaderLoaded 0; ClickRemove 1;
        SelectFiles five_files; ReaderLoaded 0]) /\
  (Z.of_nat (List.length (attachments
     (input_run initialPromptInput
        [SelectFiles five_files; ReaderLoaded 0; ReaderLoaded 0;
         ReaderLoaded 0; ReaderLoaded 0; ReaderLoaded 0; ClickRemove 1;
         SelectFiles five_files; ReaderLoaded 0])))
   <= MAX_ATTACHMENTS)%Z.
Proof.
  apply (attachment_cap_without_overlap
           [SelectFiles five_files; ReaderLoaded 0; ReaderLoaded 0;
            ReaderLoaded 0; ReaderLoaded 0; ReaderLoaded 0; ClickRemove 1;
            SelectFiles five_files; ReaderLoaded 0] initialPromptInput).
  - vm_compute. discriminate.
  - vm_compute. repeat split.
Defined.

Lemma splice1_firstn_skipn {A : Type} (l : list A) :
  forall i, splice1 i l = firstn i l ++ skipn (S i) l.
Proof.
  induction l as [|x rest IH]; intro i.
  - destruct i; reflexivity.
  - destruct i as [|i]; [reflexivity|].
    cbn [splice1 firstn app]. rewrite (IH i). reflexivity.
Qed.

(** X20.  [removeAttachment(index)] takes out the attachment at [index] and
    nothing else: the entries before it stay, those after it move up by
    one, in order; an index past the end leaves the list as it is. *)
Theorem removeAttachment_removes_exactly (p : PromptInput) (index : nat) :
  attachments (removeAttachment p index)
    = firstn index (attachments p) ++ skipn (S index) (attachments p) /\
  (forall j, (j < index)%nat ->
     nth_error (attachments (removeAttachment p index)) j
     = nth_error (attachments p) j) /\
  (forall j, (index <= j)%nat ->
     nth_error (attachments (removeAttachment p index)) j
     = nth_error (attachments p) (S j)) /\
  ((List.length (attachments p) <= index)%nat ->
     attachments (removeAttachment p index) = attachments p).
Proof.
  unfold removeAttachment. rewrite attachments_updateSubmitState.
  cbn [attachments]. rewrite splice1_firstn_skipn.
  set (l := attachments p).
  split; [reflexivity|]. split; [|split].
  - intros j Hj.
    destruct (Nat.le_gt_cases (List.length l) index) as [Hout|Hin].
    + rewrite firstn_all2 by exact Hout.
      rewrite skipn_all2 by lia. rewrite app_nil_r. reflexivity.
    + rewrite nth_error_app1 by (rewrite length_firstn; lia).
      rewrite nth_error_firstn.
      destruct (Nat.ltb_spec j index); [reflexivity|lia].
  - intros j Hj.
    destruct (Nat.le_gt_cases (List.length l) index) as [Hout|Hin].
    + rewrite firstn_all2 by exact Hout.
      rewrite skipn_all2 by lia. rewrite app_nil_r.
      transitivity (@None Attachment);
        [|symmetry]; apply nth_error_None; lia.
    + rewrite nth_error_app2 by (rewrite length_firstn; lia).
      rewrite length_firstn, nth_error_skipn.
      f_equal. lia.
  - intro Hout. rewrite firstn_all2 by exact Hout.
    rewrite skipn_all2 by lia. apply app_nil_r.
Qed.

(** X21.  [submit] does not cancel readers in flight: when the [load]
    event of a file started before the message was submitted arrives after
    it, the file becomes the only attachment of the emptied list, that is
    of the next message. *)
Theorem late_load_lands_in_next_message
  (p : PromptInput) (i : nat) (f : File) :
  isBusy p = false ->
  hasContent p = true ->
  nth_error (readers p) i = Some f ->
  attachments (readerOnload (fst (submit p)) i) = [attachmentOf f].
Proof.
  intros Hb Hc Hn. rewrite (submit_goes_through p Hb Hc). cbn [fst].
  unfold readerOnload. rewrite readers_updateSubmitState. cbn [readers].
  rewrite Hn. reflexivity.
Qed.

Lemma late_load_lands_in_next_message_witness :
  attachments
    (readerOnload
       (fst (submit (onInput (handleFiles initialPromptInput five_files) "hi")))
       0)
  = [attachmentOf (sample_file "a")].
Proof.
  apply (late_load_lands_in_next_message
           (onInput (handleFiles initialPromptInput five_files) "hi") 0
           (sample_file "a")); reflexivity.
Defined.

Lemma removeAttachment_removes_exactly_witness :
  attachments (removeAttachment loaded_input 3)
    = firstn 3 (attachments loaded_input)
      ++ skipn 4 (attachments loaded_input) /\
  (forall j, (j < 3)%nat ->
     nth_error (attachments (removeAttachment loaded_input 3)) j
     = nth_error (attachments loaded_input) j) /\
  (forall j, (3 <= j)%nat ->
     nth_error (attachments (removeAttachment loaded_input 3)) j
     = nth_error (attachments loaded_input) (S j)) /\
  ((List.length (attachments loaded_input) <= 3)%nat ->
     attachments (removeAttachment loaded_input 3)
     = attachments loaded_input).
Proof.
  exact (removeAttachment_removes_exactly loaded_input 3).
Defined.

(* ------------------------------------------------------------------------- *)
(** ** Streaming text into a message *)

Lemma substring_0_0 (t : string) : substring 0 0 t = EmptyString.
Proof. destruct t; reflexivity. Qed.

Lemma substring_snoc (t : string) :
  forall n, (n < String.length t)%nat ->
  substring 0 (S n) t = (substring 0 n t ++ substring n 1 t)%string.
Proof.
  induction t as [|ch rest IH]; intros n Hn; [cbn in Hn; lia|].
  destruct n as [|n].
  - cbn [substring append]. rewrite substring_0_0. reflexivity.
  - cbn [String.length] in Hn.
    change (substring 0 (S (S n)) (String ch rest))
      with (String ch (substring 0 (S n) rest)).
    change (substring 0 (S n) (String ch rest))
      with (String ch (substring 0 n rest)).
    change (substring (S n) 1 (String ch rest)) with (substring n 1 rest).
    rewrite (IH n) by lia. reflexivity.
Qed.

Lemma substring_full (t : string) : substring 0 (String.length t) t = t.
Proof.
  induction t as [|ch rest IH]; [reflexivity|].
  cbn [String.length substring]. rewrite IH. reflexivity.
Qed.

Lemma updates_upto_S (text : string) (n : nat) :
  updates_upto text (S n)
  = updates_upto text n
    ++ [(substring 0 (S n) text, S n, String.length text)].
Proof.
  unfold updates_upto. rewrite seq_S, map_app. reflexivity.
Qed.

Lemma stream_ticks_S (n : nat) (s : Stream) :
  stream_ticks (S n) s = stream_tick (stream_ticks n s).
Proof. reflexivity. Qed.

Lemma stream_in_progress (text : string) (onUpdate : bool) (n : nat) :
  (n <= String.length text)%nat ->
  stream_ticks n (streamContent text onUpdate)
  = {| stream_text := text; stream_index := n;
       currentContent := substring 0 n text;
       shown := substring 0 n text;
       hasOnUpdate := onUpdate; streamingInterval := true;
       resolved := false;
       updates := if onUpdate then updates_upto text n else [] |}.
Proof.
  induction n as [|n IH]; intro Hn.
  - unfold stream_ticks, streamContent. cbn [Nat.iter nat_rect].
    rewrite substring_0_0. destruct onUpdate; reflexivity.
  - rewrite stream_ticks_S, IH by lia.
    unfold stream_tick.
    cbn [streamingInterval stream_index stream_text currentContent
         hasOnUpdate updates resolved shown].
    destruct (Nat.ltb_spec n (String.length text)) as [Hlt|Hge]; [|lia].
    rewrite <- (substring_snoc text n Hlt).
    destruct onUpdate; [rewrite updates_upto_S|]; reflexivity.
Qed.

Lemma stream_finished (text : string) (onUpdate : bool) (k : nat) :
  stream_ticks (S (String.length text) + k) (streamContent text onUpdate)
  = {| stream_text := text; stream_index := String.length text;
       currentContent := text;
       shown := text;
       hasOnUpdate := onUpdate; streamingInterval := false;
       resolved := true;
       updates := if onUpdate
                  then updates_upto text (String.length text) else [] |}.
Proof.
  induction k as [|k IH].
  - rewrite Nat.add_0_r, stream_ticks_S, stream_in_progress by lia.
    unfold stream_tick.
    cbn [streamingInterval stream_index stream_text currentContent
         hasOnUpdate updates resolved shown].
    rewrite Nat.ltb_irrefl, substring_full. reflexivity.
  - rewrite Nat.add_succ_r, stream_ticks_S, IH. reflexivity.
Qed.

(** X22.  While [streamContent] is running, after [n] ticks (no more than
    the text has characters) the message shows exactly the first [n]
    characters, the promise is still pending, and [onUpdate] has been called
    [n] times, the [i]-th time with the first [i] characters, [i] and the
    total length. *)
Theorem streamContent_shows_prefix
  (text : string) (onUpdate : bool) (n : nat) :
  (n <= String.length text)%nat ->
  currentContent (stream_ticks n (streamContent text onUpdate))
    = substring 0 n text /\
  shown (stream_ticks n (streamContent text onUpdate)) = substring 0 n text /\
  resolved (stream_ticks n (streamContent text onUpdate)) = false /\
  updates (stream_ticks n (streamContent text onUpdate))
    = (if onUpdate then updates_upto text n else []).
Proof.
  intro Hn. rewrite (stream_in_progress text onUpdate n Hn).
  repeat split.
Qed.

Lemma streamContent_shows_prefix_witness :
  currentContent (stream_ticks 2 (streamContent "abc" true))
    = substring 0 2 "abc" /\
  shown (stream_ticks 2 (streamContent "abc" true)) = substring 0 2 "abc" /\
  resolved (stream_ticks 2 (streamContent "abc" true)) = false /\
  updates (stream_ticks 2 (streamContent "abc" true))
    = updates_upto "abc" 2.
Proof.
  apply (streamContent_shows_prefix "abc" true 2). simpl. lia.
Defined.

(** X23.  [streamContent] finishes on the tick after the last character:
    from then on the promise is resolved, the interval is cleared, the
    message shows the whole text, and [onUpdate] has been called exactly
    once per character (not at all for an empty text); later ticks change
    nothing. *)
Theorem streamContent_completes
  (text : string) (onUpdate : bool) (n : nat) :
  (String.length text < n)%nat ->
  resolved (stream_ticks n (streamContent text onUpdate)) = true /\
  streamingInterval (stream_ticks n (streamContent text onUpdate)) = false /\
  currentContent (stream_ticks n (streamContent text onUpdate)) = text /\
  shown (stream_ticks n (streamContent text onUpdate)) = text /\
  updates (stream_ticks n (streamContent text onUpdate))
    = (if onUpdate then updates_upto text (String.length text) else []) /\
  List.length (updates (stream_ticks n (streamContent text onUpdate)))
    = (if onUpdate then String.length text else 0%nat) /\
  stream_tick (stream_ticks n (streamContent text onUpdate))
    = stream_ticks n (streamContent text onUpdate).
Proof.
  intro Hn.
  replace n with (S (String.length text) + (n - S (String.length text)))%nat
    by lia.
  rewrite (stream_finished text onUpdate).
  cbn [resolved streamingInterval currentContent shown updates].
  repeat split.
  destruct onUpdate; [|reflexivity].
  unfold updates_upto. rewrite length_map, length_seq. reflexivity.
Qed.

Lemma streamContent_completes_witness :
  resolved (stream_ticks 1 (streamContent EmptyString true)) = true /\
  streamingInterval (stream_ticks 1 (streamContent EmptyString true)) = false /\
  currentContent (stream_ticks 1 (streamContent EmptyString true))
    = EmptyString /\
  shown (stream_ticks 1 (streamContent EmptyString true)) = EmptyString /\
  updates (stream_ticks 1 (streamContent EmptyString true))
    = updates_upto EmptyString (String.length EmptyString) /\
  List.length (updates (stream_ticks 1 (streamContent EmptyString true)))
    = String.length EmptyString /\
  stream_tick (stream_ticks 1 (streamContent EmptyString true))
    = stream_ticks 1 (streamContent EmptyString true).
Proof.
  apply (streamContent_completes EmptyString true 1). simpl. lia.
Defined.
